(** * The training orchestrator of [src/trainer.py], embedded in Rocq

    [Trainer] drives data collection, the optimisation of three models and
    their evaluation.  The collaborators it imports (collectors, datasets,
    models, optimisers, telemetry) are kept abstract in the interface
    [Externals]; the control flow of the methods of [Trainer] is written out
    in an error monad with state and a trace of the calls made to those
    collaborators. *)

From Stdlib Require Import ZArith QArith Lia.
From stdpp Require Import gmap strings list sorting.

Local Open Scope Z_scope.

(** ** Python primitives *)

Module Py.

(** Exceptions the orchestrator can raise by itself. *)
Inductive Exc := AssertionError | ZeroDivisionError | TypeError.

(** [a % b] on ints: floor remainder, [ZeroDivisionError] on [b = 0]. *)
Definition mod_ (a b : Z) : Exc + Z :=
  if decide (b = 0) then inl ZeroDivisionError else inr (Z.modulo a b).

(** [a // b] on ints: floor quotient, [ZeroDivisionError] on [b = 0]. *)
Definition floordiv (a b : Z) : Exc + Z :=
  if decide (b = 0) then inl ZeroDivisionError else inr (Z.div a b).

(** [sorted(l)] on a list of ints. *)
Definition sorted (l : list Z) : list Z := merge_sort Z.le l.

(** [l[:-1]]: everything but the last element; empty stays empty. *)
Definition but_last {A} (l : list A) : list A := take (length l - 1)%nat l.

(** [sum(l)] on a list of ints. *)
Definition sum (l : list Z) : Z := foldr Z.add 0 l.

(** [range(n)] *)
Definition range (n : Z) : list Z := Z.of_nat <$> seq 0 (Z.to_nat n).

End Py.
Arguments Py.range : simpl never.

(** ** Configuration (the fields of [cfg] that [Trainer] reads) *)

Inductive ModelName := denoiser | rew_end_model | actor_critic.

#[global] Instance ModelName_eq_dec : EqDecision ModelName.
Proof. solve_decision. Defined.

Definition name_str (name : ModelName) : string :=
match name with
| denoiser => "denoiser"
| rew_end_model => "rew_end_model"
| actor_critic => "actor_critic"
end.

(** Modelled from the spec: [utils.CommonTools], whose declaration is not
    among the sources; as [trainer.py] uses it, it is built from one value
    per model, read with [get(name)] and written with [set(name, value)]. *)
Module CommonTools.
Record t (A : Type) := mk { f_denoiser : A; f_rew_end_model : A; f_actor_critic : A }.
Arguments mk {A}.
Arguments f_denoiser {A}.
Arguments f_rew_end_model {A}.
Arguments f_actor_critic {A}.

Definition get {A} (c : t A) (name : ModelName) : A :=
  match name with
  | denoiser => f_denoiser c
  | rew_end_model => f_rew_end_model c
  | actor_critic => f_actor_critic c
  end.

Definition set {A} (c : t A) (name : ModelName) (v : A) : t A :=
  match name with
  | denoiser => mk v (f_rew_end_model c) (f_actor_critic c)
  | rew_end_model => mk (f_denoiser c) v (f_actor_critic c)
  | actor_critic => mk (f_denoiser c) (f_rew_end_model c) v
  end.
End CommonTools.

(** [cfg.<name>.training] *)
Record ComponentTrainingCfg := {
  start_after_epochs : Z;
  steps_first_epoch : Z;
  steps_per_epoch : Z;
  grad_acc_steps : Z;
  max_grad_norm : option Q;
}.

(** [cfg.collection.train.first_epoch] *)
Record FirstEpochCfg := {
  fe_min : Z;
  fe_max : option Z;
  threshold_rew : Z;
}.

(** [cfg.collection.train] *)
Record CollectionTrainCfg := {
  ct_steps_per_epoch : Z;
  first_epoch : FirstEpochCfg;
  num_steps_total : Z;
}.

(** [cfg.collection.test] *)
Record CollectionTestCfg := {
  num_episodes : Z;
  num_final_episodes : Z;
}.

Record Cfg := {
  static_dataset_path : option string;
  training_model_free : bool;
  training_should : bool;
  training_num_final_epochs : Z;
  collection_train : CollectionTrainCfg;
  collection_test : CollectionTestCfg;
  evaluation_should : bool;
  evaluation_every : Z;
  component : ModelName -> ComponentTrainingCfg;
}.

(** Modelled from the spec: [coroutines.collector.NumToCollect], whose
    declaration is not among the sources: a budget of steps or a budget of
    episodes, built as [NumToCollect(steps=n)] or
    [NumToCollect(episodes=n)]. *)
Record NumToCollect := { episodes : option Z; steps : option Z }.

Definition of_steps (n : Z) : NumToCollect := {| episodes := None; steps := Some n |}.
Definition of_episodes (n : Z) : NumToCollect := {| episodes := Some n; steps := None |}.

(** ** The collaborators of [Trainer]

    The datasets, collectors, models, optimisers and the telemetry that
    [trainer.py] imports are not among the sources; every method of
    [Trainer] is parametric in them. *)
Record Externals := {
(** values stored in a metrics record (numbers, tensors) *)
  Value : Type;
  value_of_int : Z -> Value;
  value_add_int : Value -> Z -> Value;
  np_mean : list Value -> Value;
  np_std : list Value -> Value;
(** [data.Dataset] *)
  Dataset : Type;
  num_steps : Dataset -> Z;
  counts_rew : Dataset -> list Z;
  clear : Dataset -> Dataset;
  StateDict : Type;
  state_dict : Dataset -> StateDict;
  load_state_dict : Dataset -> StateDict -> Dataset;
(** everything else that lives outside [Trainer]: environments, model
      parameters, optimiser state, the other ranks, the clock *)
  World : Type;
  train_collector_send :
    NumToCollect -> World -> Dataset -> World * Dataset * list (gmap string Value);
  test_collector_send :
    NumToCollect -> World -> Dataset -> World * Dataset * list (gmap string Value);
  (** [utils.broadcast_if_needed]: what this rank holds after the exchange *)
  broadcast_initial : World -> option Z * StateDict -> option Z * StateDict;
  broadcast_dataset : World -> StateDict -> StateDict;
  Batch : Type;
  Loss : Type;
  next_batch : ModelName -> World -> Dataset -> World * Batch;
  model_call : ModelName -> option Batch -> World -> World * (Loss * gmap string Value);
  backward : Loss -> World -> World;
  clip_grad_norm_ : ModelName -> Q -> World -> World * Value;
  opt_step : ModelName -> World -> World;
  opt_zero_grad : ModelName -> World -> World;
  lr_sched_present : ModelName -> bool;
  get_last_lr : ModelName -> World -> Value;
  lr_sched_step : ModelName -> World -> World;
  traverse : ModelName -> Dataset -> list Batch;
  process_confusion_matrices :
    list (gmap string Value) -> list (gmap string Value);
  agent_train : World -> World;
  agent_eval : World -> World;
  agent_zero_grad : World -> World;
  model_train : ModelName -> World -> World;
  model_eval : ModelName -> World -> World;
  elapsed_hours : World -> Value;
  dist_is_initialized : bool;
  wandb_run_is_not_none : bool;
}.
Existing Class Externals.

(** ** State, trace and the monad of the methods *)

(** How a call ends: it returns, raises, or the fuel given to an unbounded
    loop ran out before the loop was left. *)
Inductive Outcome (A : Type) :=
| Returns (a : A)
| Raises (e : Py.Exc)
| OutOfFuel.
Arguments Returns {A}.
Arguments Raises {A}.
Arguments OutOfFuel {A}.

Section Orchestrator.
Context {E : Externals}.

Abbreviation Metrics := (gmap string (Value E)).
Abbreviation Logs := (list (gmap string (Value E))).

(** The calls a method makes to its collaborators and to the other
    methods, in the order made; a method entered records [self.epoch]. *)
Inductive Event :=
| TrainCollectorSend (n : NumToCollect)
| CollectTest (final : bool) (epoch : Z)
| TestDatasetClear
| TestCollectorSend (n : NumToCollect)
| StartEpoch (epoch num_epochs : Z)
| TrainAgent (epoch : Z)
| TestAgent (epoch : Z)
| TrainComponent (name : ModelName) (steps : Z)
| ModelCall (name : ModelName)
| ClipGradNorm (name : ModelName)
| OptStep (name : ModelName)
| OptZeroGrad (name : ModelName)
| LrSchedStep (name : ModelName)
| TestComponent (name : ModelName)
| ModelEval (name : ModelName)
| WandbLog (logs : Logs) (epoch : Z)
| SaveCheckpoint (epoch : Z)
| Barrier
| WandbFinish.

(** Attributes fixed by [__init__]. *)
Record Trainer := { _cfg : Cfg; _rank : Z }.

Definition _is_static_dataset (self : Trainer) : bool :=
  match static_dataset_path (_cfg self) with Some _ => true | None => false end.

Definition _is_model_free (self : Trainer) : bool := training_model_free (_cfg self).

Definition _model_names : list ModelName := [denoiser; rew_end_model; actor_critic].

(** "Training state (things to be saved/restored)", with the two datasets
    and the outside world the methods act on. *)
Record State := {
  epoch : Z;
  num_epochs_collect : option Z;
  num_episodes_test : Z;
  num_batch_train : CommonTools.t Z;
  num_batch_test : CommonTools.t Z;
  train_dataset : Dataset E;
  test_dataset : Dataset E;
  world : World E;
}.

Definition set_epoch (v : Z) (s : State) : State :=
  {| epoch := v; num_epochs_collect := num_epochs_collect s;
     num_episodes_test := num_episodes_test s; num_batch_train := num_batch_train s;
     num_batch_test := num_batch_test s; train_dataset := train_dataset s;
     test_dataset := test_dataset s; world := world s |}.

Definition set_num_epochs_collect (v : option Z) (s : State) : State :=
  {| epoch := epoch s; num_epochs_collect := v;
     num_episodes_test := num_episodes_test s; num_batch_train := num_batch_train s;
     num_batch_test := num_batch_test s; train_dataset := train_dataset s;
     test_dataset := test_dataset s; world := world s |}.

Definition set_num_episodes_test (v : Z) (s : State) : State :=
  {| epoch := epoch s; num_epochs_collect := num_epochs_collect s;
     num_episodes_test := v; num_batch_train := num_batch_train s;
     num_batch_test := num_batch_test s; train_dataset := train_dataset s;
     test_dataset := test_dataset s; world := world s |}.

Definition set_num_batch_train (v : CommonTools.t Z) (s : State) : State :=
  {| epoch := epoch s; num_epochs_collect := num_epochs_collect s;
     num_episodes_test := num_episodes_test s; num_batch_train := v;
     num_batch_test := num_batch_test s; train_dataset := train_dataset s;
     test_dataset := test_dataset s; world := world s |}.

Definition set_num_batch_test (v : CommonTools.t Z) (s : State) : State :=
  {| epoch := epoch s; num_epochs_collect := num_epochs_collect s;
     num_episodes_test := num_episodes_test s; num_batch_train := num_batch_train s;
     num_batch_test := v; train_dataset := train_dataset s;
     test_dataset := test_dataset s; world := world s |}.

Definition set_train_dataset (v : Dataset E) (s : State) : State :=
  {| epoch := epoch s; num_epochs_collect := num_epochs_collect s;
     num_episodes_test := num_episodes_test s; num_batch_train := num_batch_train s;
     num_batch_test := num_batch_test s; train_dataset := v;
     test_dataset := test_dataset s; world := world s |}.

Definition set_test_dataset (v : Dataset E) (s : State) : State :=
  {| epoch := epoch s; num_epochs_collect := num_epochs_collect s;
     num_episodes_test := num_episodes_test s; num_batch_train := num_batch_train s;
     num_batch_test := num_batch_test s; train_dataset := train_dataset s;
     test_dataset := v; world := world s |}.

Definition set_world (v : World E) (s : State) : State :=
  {| epoch := epoch s; num_epochs_collect := num_epochs_collect s;
     num_episodes_test := num_episodes_test s; num_batch_train := num_batch_train s;
     num_batch_test := num_batch_test s; train_dataset := train_dataset s;
     test_dataset := test_dataset s; world := v |}.

Definition M (A : Type) : Type := State -> list Event * Outcome (A * State).

Definition ret {A} (a : A) : M A := fun s => ([], Returns (a, s)).

Definition bind {A B} (m : M A) (k : A -> M B) : M B :=
  fun s =>
    match m s with
    | (t, Returns (a, s')) => let '(t', o) := k a s' in (t ++ t', o)
    | (t, Raises e) => (t, Raises e)
    | (t, OutOfFuel) => (t, OutOfFuel)
    end.

Definition raise {A} (e : Py.Exc) : M A := fun s => ([], Raises e).
Definition out_of_fuel {A} : M A := fun s => ([], OutOfFuel).
Definition emit (ev : Event) : M unit := fun s => ([ev], Returns (tt, s)).
Definition gets {A} (f : State -> A) : M A := fun s => ([], Returns (f s, s)).
Definition modify (f : State -> State) : M unit := fun s => ([], Returns (tt, f s)).

Definition lift {A} (r : Py.Exc + A) : M A :=
  match r with inl e => raise e | inr a => ret a end.

Definition assert_ (b : bool) : M unit :=
  if b then ret tt else raise Py.AssertionError.

Definition when (b : bool) (m : M unit) : M unit := if b then m else ret tt.

Notation "x <- c1 ;; c2" := (bind c1 (fun x => c2))
  (at level 100, c1 at next level, right associativity).
Notation "c1 ;; c2" := (bind c1 (fun _ => c2))
  (at level 100, right associativity).

(** The trace and the outcome of a call started in [s]. *)
Definition trace {A} (m : M A) (s : State) : list Event := fst (m s).
Definition outcome {A} (m : M A) (s : State) : Outcome (A * State) := snd (m s).

(** ** Calls to collaborators that change a dataset or the world *)

Definition train_collector_send_ (n : NumToCollect) : M Logs :=
  fun s =>
    let '(w, d, logs) := train_collector_send E n (world s) (train_dataset s) in
    ([TrainCollectorSend n], Returns (logs, set_train_dataset d (set_world w s))).

Definition test_collector_send_ (n : NumToCollect) : M Logs :=
  fun s =>
    let '(w, d, logs) := test_collector_send E n (world s) (test_dataset s) in
    ([TestCollectorSend n], Returns (logs, set_test_dataset d (set_world w s))).

(** A call that acts on the world only and hands back a result; [evs] is
    what it adds to the trace. *)
Definition call_world {A} (evs : list Event) (f : World E -> World E * A) : M A :=
  fun s => let '(w, a) := f (world s) in (evs, Returns (a, set_world w s)).

Definition in_world (evs : list Event) (f : World E -> World E) : M unit :=
  call_world evs (fun w => (f w, tt)).

(** ** [Trainer.collect_initial_dataset] *)

(** [sum(sorted(self.train_dataset.counts_rew)[:-1])] *)
Definition total_minority_rew (counts : list Z) : Z :=
  Py.sum (Py.but_last (Py.sorted counts)).

(** The [while True] loop; [steps] and [to_log] are the variables it
    carries from one round to the next.  It yields the last [num_steps]. *)
Fixpoint collect_initial_loop (self : Trainer) (fuel : nat) (steps : Z) (to_log : Logs)
  : M (Z * Logs) :=
  match fuel with
  | O => out_of_fuel
  | S fuel =>
      let c := collection_train (_cfg self) in
      logs <- train_collector_send_ (of_steps steps) ;;
      let to_log := to_log ++ logs in
      td <- gets train_dataset ;;
      let num_steps := num_steps E td in
      let total_minority_rew := total_minority_rew (counts_rew E td) in
      if bool_decide (threshold_rew (first_epoch c) <= total_minority_rew) then
        ret (num_steps, to_log)
      else if match fe_max (first_epoch c) with
              | Some max_steps => bool_decide (max_steps <= num_steps)
              | None => false
              end then
        ret (num_steps, to_log)
      else
        collect_initial_loop self fuel (ct_steps_per_epoch c) to_log
  end.

Definition collect_initial_dataset (self : Trainer) (fuel : nat) : M (Z * Logs) :=
  let c := collection_train (_cfg self) in
  let min_steps := fe_min (first_epoch c) in
  let steps_per_epoch := ct_steps_per_epoch c in
  r <- lift (Py.mod_ min_steps steps_per_epoch) ;;
  assert_ (bool_decide (r = 0)) ;;
  r <- collect_initial_loop self fuel min_steps [] ;;
  let '(num_steps, to_log) := r in
  let remaining_steps := num_steps_total c - num_steps in
  r <- lift (Py.mod_ remaining_steps (ct_steps_per_epoch c)) ;;
  assert_ (bool_decide (r = 0)) ;;
  num_epochs_collect <- lift (Py.floordiv remaining_steps (ct_steps_per_epoch c)) ;;
  ret (num_epochs_collect, to_log).

(** ** [Trainer.collect_test] *)

(** [f"{td.name}/episode_id"], the test dataset being named
    ["test_dataset"] by [__init__]. *)
Definition key_ep_id : string := "test_dataset/episode_id".

(** [[{k: v + self.num_episodes_test if k == key_ep_id else v for k, v in
    x.items()} for x in to_log]] *)
Definition shift_episode_ids (n : Z) (to_log : Logs) : Logs :=
  (fun x : Metrics =>
     map_imap (fun k v => Some (if decide (k = key_ep_id) then value_add_int E v n else v)) x)
    <$> to_log.

(** [returns]: the ["return"] entries of the records of [to_log] whose
    keys are exactly [keys]. *)
Definition episode_returns (to_log : Logs) : list (Value E) :=
  let keys := [key_ep_id; "return"; "length"] in
  let to_log_episodes :=
    filter (fun x : Metrics => dom x = (list_to_set keys : gset string)) to_log in
  omap (fun d : Metrics => d !! "return") to_log_episodes.

(** [{"final_return_mean": np.mean(returns), "final_return_std":
    np.std(returns)}] *)
Definition final_return_stats (returns : list (Value E)) : Metrics :=
  <["final_return_mean" := np_mean E returns]> {["final_return_std" := np_std E returns]}.

Definition collect_test (self : Trainer) (final : bool) : M Logs :=
  let c := collection_test (_cfg self) in
  let episodes := if final then num_final_episodes c else num_episodes c in
  ep <- gets epoch ;;
  emit (CollectTest final ep) ;;
  emit TestDatasetClear ;;
  modify (fun s => set_test_dataset (clear E (test_dataset s)) s) ;;
  to_log <- test_collector_send_ (of_episodes episodes) ;;
  n <- gets num_episodes_test ;;
  let to_log := shift_episode_ids n to_log in
  let returns := episode_returns to_log in
  modify (set_num_episodes_test (n + episodes)) ;;
  if final then ret (to_log ++ [final_return_stats returns])
  else ret to_log.

(** ** [Trainer.train_component] *)

(** [for x in l: acc = body(x, acc)] *)
Fixpoint for_each {A B} (l : list A) (body : A -> B -> M B) (acc : B) : M B :=
  match l with
  | [] => ret acc
  | x :: l => acc <- body x acc ;; for_each l body acc
  end.

(** [self._data_loader_train = CommonTools(dl_denoiser_train,
    dl_rew_end_model_train, None)]: which slots hold a loader. *)
Definition _data_loader_train : CommonTools.t bool := CommonTools.mk true true false.
Definition _data_loader_test : CommonTools.t bool := CommonTools.mk true true false.

Definition prefix_keys (pre : string) (d : Metrics) : Metrics :=
  kmap (fun k => String.append pre k) d.

(** One round of the [for i in trange(num_steps)] loop. *)
Definition train_iteration (self : Trainer) (name : ModelName) (i : Z) (to_log : Logs)
  : M Logs :=
  let cfg := component (_cfg self) name in
  batch <- (if CommonTools.get _data_loader_train name then
              td <- gets train_dataset ;;
              b <- call_world [] (fun w => next_batch E name w td) ;;
              ret (Some b)
            else ret None) ;;
  r <- call_world [ModelCall name] (model_call E name batch) ;;
  let '(loss, metrics) := r in
  in_world [] (backward E loss) ;;
  num_batch <- gets (fun s => CommonTools.get (num_batch_train s) name) ;;
  let metrics := <[String.append "num_batch_train_" (name_str name) := value_of_int E num_batch]> metrics in
  modify (fun s => set_num_batch_train (CommonTools.set (num_batch_train s) name (num_batch + 1)) s) ;;
  r <- lift (Py.mod_ (i + 1) (grad_acc_steps cfg)) ;;
  metrics <-
    (if bool_decide (r = 0) then
       metrics <- match max_grad_norm cfg with
                  | Some g =>
                      grad_norm <- call_world [ClipGradNorm name] (clip_grad_norm_ E name g) ;;
                      ret (<["grad_norm_before_clip" := grad_norm]> metrics)
                  | None => ret metrics
                  end ;;
       in_world [OptStep name] (opt_step E name) ;;
       in_world [OptZeroGrad name] (opt_zero_grad E name) ;;
       if lr_sched_present E name then
         lr <- gets (fun s => get_last_lr E name (world s)) ;;
         in_world [LrSchedStep name] (lr_sched_step E name) ;;
         ret (<["lr" := lr]> metrics)
       else ret metrics
     else ret metrics) ;;
  ret (to_log ++ [metrics]).

Definition train_component (self : Trainer) (name : ModelName) (steps : Z) : M Logs :=
  let cfg := component (_cfg self) name in
  emit (TrainComponent name steps) ;;
  in_world [] (model_train E name) ;;
  in_world [OptZeroGrad name] (opt_zero_grad E name) ;;
  let to_log := [] in
  let num_steps := grad_acc_steps cfg * steps in
  let num_steps := 1000 in
  to_log <- for_each (Py.range num_steps) (train_iteration self name) to_log ;;
  let to_log := process_confusion_matrices E to_log in
  ret (prefix_keys (String.append (name_str name) "/train/") <$> to_log).

(** ** [Trainer.train_agent] *)

(** The body of [for name in model_names]. *)
Definition train_if_started (self : Trainer) (name : ModelName) (to_log : Logs) : M Logs :=
  let cfg := component (_cfg self) name in
  epoch <- gets epoch ;;
  if bool_decide (start_after_epochs cfg < epoch) then
    let steps := if bool_decide (epoch = 1) then steps_first_epoch cfg
                 else steps_per_epoch cfg in
    logs <- train_component self name steps ;;
    ret (to_log ++ logs)
  else ret to_log.

Definition train_agent (self : Trainer) : M Logs :=
  ep <- gets epoch ;;
  emit (TrainAgent ep) ;;
  in_world [] (agent_train E) ;;
  in_world [] (agent_zero_grad E) ;;
  let to_log := [] in
  let model_names := if _is_model_free self then [actor_critic] else _model_names in
  for_each model_names (train_if_started self) to_log.

(** ** [Trainer.test_component] and [Trainer.test_agent] *)

Definition test_component (self : Trainer) (name : ModelName) : M Logs :=
  emit (TestComponent name) ;;
  (if CommonTools.get _data_loader_test name then ret tt else raise Py.TypeError) ;;
  in_world [] (model_eval E name) ;;
  td <- gets test_dataset ;;
  to_log <- for_each (traverse E name td)
    (fun batch to_log =>
       r <- call_world [ModelEval name] (model_call E name (Some batch)) ;;
       let metrics := snd r in
       num_batch <- gets (fun s => CommonTools.get (num_batch_test s) name) ;;
       let metrics := <[String.append "num_batch_test_" (name_str name) := value_of_int E num_batch]> metrics in
       modify (fun s => set_num_batch_test (CommonTools.set (num_batch_test s) name (num_batch + 1)) s) ;;
       ret (to_log ++ [metrics]))
    [] ;;
  let to_log := process_confusion_matrices E to_log in
  ret (prefix_keys (String.append (name_str name) "/test/") <$> to_log).

Definition test_if_started (self : Trainer) (name : ModelName) (to_log : Logs) : M Logs :=
  let cfg := component (_cfg self) name in
  epoch <- gets epoch ;;
  if bool_decide (start_after_epochs cfg < epoch) then
    logs <- test_component self name ;;
    ret (to_log ++ logs)
  else ret to_log.

Definition test_agent (self : Trainer) : M Logs :=
  ep <- gets epoch ;;
  emit (TestAgent ep) ;;
  in_world [] (agent_eval E) ;;
  let to_log := [] in
  let model_names := if _is_model_free self then [] else Py.but_last _model_names in
  for_each model_names (test_if_started self) to_log.

(** ** [Trainer.save_checkpoint] *)

Definition save_checkpoint (self : Trainer) : M unit :=
  if bool_decide (_rank self = 0) then
    epoch <- gets epoch ;; emit (SaveCheckpoint epoch)
  else ret tt.

(** ** [Trainer.run] *)

(** [sd, = broadcast_if_needed(self.train_dataset.state_dict());
    self.train_dataset.load_state_dict(sd)] *)
Definition sync_train_dataset : M unit :=
  modify (fun s =>
    let sd_train_dataset := broadcast_dataset E (world s) (state_dict E (train_dataset s)) in
    set_train_dataset (load_state_dict E (train_dataset s) sd_train_dataset) s).

(** [self.num_epochs_collect], an int once it has been set. *)
Definition get_num_epochs_collect : M Z :=
  n <- gets num_epochs_collect ;;
  match n with Some n => ret n | None => raise Py.TypeError end.

(** [self._rank == 0 and not self._is_model_free and not
    self._is_static_dataset and self.epoch <= self.num_epochs_collect],
    the last operand looked at only if the others hold. *)
Definition should_collect_train (self : Trainer) : M bool :=
  if bool_decide (_rank self = 0) && negb (_is_model_free self)
     && negb (_is_static_dataset self) then
    ep <- gets epoch ;;
    n <- get_num_epochs_collect ;;
    ret (bool_decide (ep <= n))
  else ret false.

(** [self._rank == 0 and self._cfg.evaluation.should and (self.epoch %
    self._cfg.evaluation.every == 0)], with the same short cut. *)
Definition should_test (self : Trainer) : M bool :=
  if bool_decide (_rank self = 0) && evaluation_should (_cfg self) then
    ep <- gets epoch ;;
    r <- lift (Py.mod_ ep (evaluation_every (_cfg self))) ;;
    ret (bool_decide (r = 0))
  else ret false.

(** The body of [while self.epoch < num_epochs]; [to_log] is what the
    list holds when the round starts, and the round leaves it empty. *)
Definition epoch_body (self : Trainer) (num_epochs : Z) (to_log : Logs) : M unit :=
  modify (fun s => set_epoch (epoch s + 1) s) ;;
  ep <- gets epoch ;;
  emit (StartEpoch ep num_epochs) ;;
  should_collect_train <- should_collect_train self ;;
  to_log <-
    (if should_collect_train then
       let c := collection_train (_cfg self) in
       logs <- train_collector_send_ (of_steps (ct_steps_per_epoch c)) ;;
       ret (to_log ++ logs)
     else ret to_log) ;;
  sync_train_dataset ;;
  to_log <-
    (if training_should (_cfg self) then
       logs <- train_agent self ;; ret (to_log ++ logs)
     else ret to_log) ;;
  should_test <- should_test self ;;
  let should_collect_test := should_test && negb (_is_static_dataset self) in
  to_log <-
    (if should_collect_test then
       logs <- collect_test self false ;; ret (to_log ++ logs)
     else ret to_log) ;;
  to_log <-
    (if should_test && negb (_is_model_free self) then
       logs <- test_agent self ;; ret (to_log ++ logs)
     else ret to_log) ;;
  duration <- gets (fun s => elapsed_hours E (world s)) ;;
  let to_log := to_log ++ [ {["duration" := duration]} ] in
  when (bool_decide (_rank self = 0)) (emit (WandbLog to_log ep)) ;;
  save_checkpoint self ;;
  when (dist_is_initialized E) (emit Barrier).

(** [while self.epoch < num_epochs: ...]; the test comes before the fuel
    is looked at, so [n] units of fuel allow [n] rounds and the final
    test. *)
Fixpoint epoch_loop (self : Trainer) (fuel : nat) (num_epochs : Z) (to_log : Logs)
  : M unit :=
  ep <- gets epoch ;;
  if bool_decide (ep < num_epochs) then
    match fuel with
    | O => out_of_fuel
    | S fuel => epoch_body self num_epochs to_log ;; epoch_loop self fuel num_epochs []
    end
  else ret tt.

(** The part of [run] before the epoch loop: it yields [to_log]. *)
Definition initial_collection (self : Trainer) (fuel : nat) : M Logs :=
  let to_log := [] in
  ep <- gets epoch ;;
  if bool_decide (ep = 0) then
    if _is_model_free self || _is_static_dataset self then
      modify (set_num_epochs_collect (Some 0)) ;; ret to_log
    else
      to_log <-
        (if bool_decide (_rank self = 0) then
           r <- collect_initial_dataset self fuel ;;
           modify (set_num_epochs_collect (Some (fst r))) ;;
           ret (to_log ++ snd r)
         else ret to_log) ;;
      modify (fun s =>
        let r := broadcast_initial E (world s)
                   (num_epochs_collect s, state_dict E (train_dataset s)) in
        set_train_dataset (load_state_dict E (train_dataset s) (snd r))
          (set_num_epochs_collect (fst r) s)) ;;
      ret to_log
  else ret to_log.

(** The part of [run] after the epoch loop. *)
Definition last_collect (self : Trainer) : M unit :=
  when (bool_decide (_rank self = 0) && negb (_is_static_dataset self))
    (logs <- collect_test self true ;;
     ep <- gets epoch ;;
     emit (WandbLog logs ep)) ;;
  when (bool_decide (_rank self = 0) && wandb_run_is_not_none E) (emit WandbFinish).

(** [fuel] bounds the rounds of the [while True] loop of the initial
    collection; the epoch loop is run with as many rounds as its test
    allows. *)
Definition run (self : Trainer) (fuel : nat) : M unit :=
  to_log <- initial_collection self fuel ;;
  n <- get_num_epochs_collect ;;
  let num_epochs := n + training_num_final_epochs (_cfg self) in
  let num_epochs := 2 in
  ep <- gets epoch ;;
  epoch_loop self (Z.to_nat (num_epochs - ep)) num_epochs to_log ;;
  last_collect self.

End Orchestrator.

(** ** A scripted instance of the collaborators

    Values are integers, a dataset is its step count with its reward
    histogram, and the world is the list of datasets the train collector
    will produce, one per call; once the script is used up a call adds the
    requested steps to the first bucket.  A rank that holds no number of
    collection epochs is sent 3. *)
Module Scripted.

Definition dataset : Type := Z * list Z.

Definition train_send (n : NumToCollect) (w : list dataset) (d : dataset)
  : list dataset * dataset * list (gmap string Z) :=
  match w with
  | d' :: w' => (w', d', [])
  | [] =>
      let k := default 0 (steps n) in
      ([], (fst d + k, match snd d with [] => [k] | c :: cs => (c + k) :: cs end), [])
  end.

(** The test collector reports two episodes, with returns 3 and 5. *)
Definition test_send (n : NumToCollect) (w : list dataset) (d : dataset)
  : list dataset * dataset * list (gmap string Z) :=
  (w, d,
   [ {[ "test_dataset/episode_id" := 0; "return" := 3; "length" := 10 ]};
     {[ "test_dataset/episode_id" := 1; "return" := 5; "length" := 20 ]} ]).

Definition ext : Externals := {|
  Value := Z;
  value_of_int := id;
  value_add_int := Z.add;
  np_mean := fun l => Py.sum l `div` Z.of_nat (length l);
  np_std := fun l => 0;
  Dataset := dataset;
  num_steps := fst;
  counts_rew := snd;
  clear := fun _ => (0, []);
  StateDict := dataset;
  state_dict := id;
  load_state_dict := fun _ sd => sd;
  World := list dataset;
  train_collector_send := train_send;
  test_collector_send := test_send;
  broadcast_initial := fun _ x => (Some (default 3 (fst x)), snd x);
  broadcast_dataset := fun _ x => x;
  Batch := unit;
  Loss := unit;
  next_batch := fun _ w _ => (w, tt);
  model_call := fun _ _ w => (w, (tt, ∅));
  backward := fun _ w => w;
  clip_grad_norm_ := fun _ _ w => (w, 0);
  opt_step := fun _ w => w;
  opt_zero_grad := fun _ w => w;
  lr_sched_present := fun _ => true;
  get_last_lr := fun _ _ => 0;
  lr_sched_step := fun _ w => w;
  traverse := fun _ _ => [tt];
  process_confusion_matrices := id;
  agent_train := id;
  agent_eval := id;
  agent_zero_grad := id;
  model_train := fun _ w => w;
  model_eval := fun _ w => w;
  elapsed_hours := fun _ => 0;
  dist_is_initialized := false;
  wandb_run_is_not_none := true;
|}.

Definition comp_cfg (g : Z) : ComponentTrainingCfg :=
  {| start_after_epochs := 0; steps_first_epoch := 8; steps_per_epoch := 8;
     grad_acc_steps := g; max_grad_norm := None |}.

(** A configuration: 100 steps at least in the initial collection, 10
    per epoch, 1002 in all, a threshold of 10 rewards of the minority; 5
    final epochs; [grad_acc_steps] 4 and 8 steps per epoch for every
    model. *)
Definition cfg_with (static : option string) (model_free training : bool)
    (every min_steps : Z) : Cfg := {|
  static_dataset_path := static;
  training_model_free := model_free;
  training_should := training;
  training_num_final_epochs := 5;
  collection_train :=
    {| ct_steps_per_epoch := 10;
       first_epoch := {| fe_min := min_steps; fe_max := None; threshold_rew := 10 |};
       num_steps_total := 1002 |};
  collection_test := {| num_episodes := 2; num_final_episodes := 2 |};
  evaluation_should := true;
  evaluation_every := every;
  component := fun _ => comp_cfg 4;
|}.

Definition cfg : Cfg := cfg_with None false true 5 100.

(** Rank 0 with [cfg], and the variations the scenarios use. *)
Definition trainer : Trainer := {| _cfg := cfg; _rank := 0 |}.
Definition trainer_idle : Trainer :=
  {| _cfg := cfg_with None false false 5 100; _rank := 0 |}.
Definition trainer_rank1 : Trainer :=
  {| _cfg := cfg_with None false false 5 100; _rank := 1 |}.
Definition trainer_model_free : Trainer :=
  {| _cfg := cfg_with None true false 1 100; _rank := 0 |}.
Definition trainer_model_free_training : Trainer :=
  {| _cfg := cfg_with None true true 1 100; _rank := 0 |}.
Definition trainer_static : Trainer :=
  {| _cfg := cfg_with (Some "dataset") false false 5 100; _rank := 0 |}.
Definition trainer_odd_min : Trainer :=
  {| _cfg := cfg_with None false true 5 105; _rank := 0 |}.

(** A fresh state at [epoch], the world holding the script [w]. *)
Definition state_at (epoch : Z) (w : list dataset) : @State ext :=
  @Build_State ext epoch None 0 (CommonTools.mk 0 0 0) (CommonTools.mk 0 0 0)
    (0, []) (0, []) w.

Definition state0 (w : list dataset) : @State ext := state_at 0 w.

(** The reward histograms {0: 100, 1: 5} and then {0: 120, 1: 12}. *)
Definition two_collections : list dataset := [(105, [100; 5]); (132, [120; 12])].

(** The state a call leaves when it returns. *)
Definition final_state {A} (r : list (@Event ext) * Outcome (A * @State ext)) : @State ext :=
  match r.2 with
  | Returns (_, s) => s
  | _ => state0 []
  end.

(** The runs of the scenarios, evaluated. *)
Definition initial_loop_trace : list (@Event ext) :=
  Eval vm_compute in
    (collect_initial_loop (E := ext) trainer 5 100 [] (state0 two_collections)).1.
Definition initial_loop_state : @State ext :=
  Eval vm_compute in
    final_state (collect_initial_loop (E := ext) trainer 5 100 [] (state0 two_collections)).

Definition cadence_start : @State ext := set_num_epochs_collect (Some 0) (state0 []).
Definition cadence_trace : list (@Event ext) :=
  Eval vm_compute in (epoch_loop (E := ext) trainer_idle 12 12 [] cadence_start).1.
Definition cadence_state : @State ext :=
  Eval vm_compute in final_state (epoch_loop (E := ext) trainer_idle 12 12 [] cadence_start).

Definition model_free_run_trace : list (@Event ext) :=
  Eval vm_compute in (run (E := ext) trainer_model_free 5 (state0 [])).1.
Definition model_free_run_state : @State ext :=
  Eval vm_compute in final_state (run (E := ext) trainer_model_free 5 (state0 [])).

Definition idle_run_trace : list (@Event ext) :=
  Eval vm_compute in (run (E := ext) trainer_idle 5 (state0 two_collections)).1.
Definition idle_run_state : @State ext :=
  Eval vm_compute in final_state (run (E := ext) trainer_idle 5 (state0 two_collections)).

(** Variations for the further scenarios: a maximum of 103 steps for the
    initial collection; [grad_acc_steps] 0; an evaluation period of 0. *)
Definition trainer_capped : Trainer :=
  {| _cfg :=
       {| static_dataset_path := None;
          training_model_free := false;
          training_should := true;
          training_num_final_epochs := 5;
          collection_train :=
            {| ct_steps_per_epoch := 10;
               first_epoch := {| fe_min := 100; fe_max := Some 103; threshold_rew := 10 |};
               num_steps_total := 1002 |};
          collection_test := {| num_episodes := 2; num_final_episodes := 2 |};
          evaluation_should := true;
          evaluation_every := 5;
          component := fun _ => comp_cfg 4 |};
     _rank := 0 |}.

Definition trainer_zero_grad_acc : Trainer :=
  {| _cfg :=
       {| static_dataset_path := None;
          training_model_free := false;
          training_should := true;
          training_num_final_epochs := 5;
          collection_train :=
            {| ct_steps_per_epoch := 10;
               first_epoch := {| fe_min := 100; fe_max := None; threshold_rew := 10 |};
               num_steps_total := 1002 |};
          collection_test := {| num_episodes := 2; num_final_episodes := 2 |};
          evaluation_should := true;
          evaluation_every := 5;
          component := fun _ => comp_cfg 0 |};
     _rank := 0 |}.

Definition trainer_every_zero : Trainer :=
  {| _cfg := cfg_with None false false 0 100; _rank := 0 |}.

(** [evaluation.should] off. *)
Definition trainer_no_evaluation : Trainer :=
  {| _cfg :=
       {| static_dataset_path := None;
          training_model_free := false;
          training_should := false;
          training_num_final_epochs := 5;
          collection_train :=
            {| ct_steps_per_epoch := 10;
               first_epoch := {| fe_min := 100; fe_max := None; threshold_rew := 10 |};
               num_steps_total := 1002 |};
          collection_test := {| num_episodes := 2; num_final_episodes := 2 |};
          evaluation_should := false;
          evaluation_every := 1;
          component := fun _ => comp_cfg 4 |};
     _rank := 0 |}.

(** A fresh state whose train dataset is [d], the script empty. *)
Definition state_holding (d : dataset) : @State ext :=
  @Build_State ext 0 None 0 (CommonTools.mk 0 0 0) (CommonTools.mk 0 0 0) d (0, []) [].

(** Two epochs of which the first is a collection epoch. *)
Definition course_start : @State ext := set_num_epochs_collect (Some 1) (state0 []).
Definition course_trace : list (@Event ext) :=
  Eval vm_compute in (epoch_loop (E := ext) trainer_idle 2 2 [] course_start).1.
Definition course_state : @State ext :=
  Eval vm_compute in final_state (epoch_loop (E := ext) trainer_idle 2 2 [] course_start).

End Scripted.

(** ** Vocabulary of the statements *)

(** The largest element of [x :: l]. *)
Definition largest (x : Z) (l : list Z) : Z := foldr Z.max x l.

(** The sum of all buckets of a histogram except one largest bucket. *)
Definition sum_all_but_largest (counts : list Z) : Z :=
  match counts with
  | [] => 0
  | x :: l => Py.sum counts - largest x l
  end.

Definition is_max (m : Z) (l : list Z) : Prop := m ∈ l ∧ ∀ y, y ∈ l → y <= m.

(** The epochs [a + 1, ..., b]. *)
Definition epochs_between (a b : Z) : list Z :=
  (fun i => a + Z.of_nat i) <$> seq 1 (Z.to_nat (b - a)).

Section Vocabulary.
Context {E : Externals}.

(** Classes of events. *)
Definition is_training (ev : @Event E) : bool :=
  match ev with
  | TrainAgent _ | TrainComponent _ _ | ModelCall _ | ClipGradNorm _
  | OptStep _ | OptZeroGrad _ | LrSchedStep _ => true
  | _ => false
  end.

(** Environment interaction: the two collectors and the test store they
    fill. *)
Definition is_collection (ev : @Event E) : bool :=
  match ev with
  | TrainCollectorSend _ | CollectTest _ _ | TestDatasetClear | TestCollectorSend _ => true
  | _ => false
  end.

Definition is_evaluation (ev : @Event E) : bool :=
  match ev with
  | TestAgent _ | TestComponent _ | ModelEval _ => true
  | _ => false
  end.

(** The model an event is about. *)
Definition event_model (ev : @Event E) : option ModelName :=
  match ev with
  | TrainComponent name _ | ModelCall name | ClipGradNorm name | OptStep name
  | OptZeroGrad name | LrSchedStep name | TestComponent name | ModelEval name => Some name
  | _ => None
  end.

(** Projections of a trace. *)
Definition started_epoch (ev : @Event E) : option Z :=
  match ev with StartEpoch e _ => Some e | _ => None end.

Definition train_component_call (ev : @Event E) : option (ModelName * Z) :=
  match ev with TrainComponent name steps => Some (name, steps) | _ => None end.

Definition test_collection_epoch (ev : @Event E) : option Z :=
  match ev with CollectTest false e => Some e | _ => None end.

Definition test_agent_epoch (ev : @Event E) : option Z :=
  match ev with TestAgent e => Some e | _ => None end.

Definition is_final_collect (ev : @Event E) : bool :=
  match ev with CollectTest true _ => true | _ => false end.

Definition count (p : @Event E -> bool) (t : list (@Event E)) : nat :=
  length (filter (fun ev => p ev = true) t).

Definition is_model_call (ev : @Event E) : bool :=
  match ev with ModelCall _ => true | _ => false end.
Definition is_opt_step (ev : @Event E) : bool :=
  match ev with OptStep _ => true | _ => false end.
Definition is_opt_zero_grad (ev : @Event E) : bool :=
  match ev with OptZeroGrad _ => true | _ => false end.
Definition is_lr_sched_step (ev : @Event E) : bool :=
  match ev with LrSchedStep _ => true | _ => false end.

(** What a call may do to the state: leave [self.epoch] alone, or
    anything. *)
Definition same_epoch : relation (@State E) := fun s s' => epoch s' = epoch s.
Definition anything : relation (@State E) := fun _ _ => True.

(** [obeys P R F m]: every event of every trace of [m] satisfies [P], a
    call that returns relates the states before and after by [R], and [F]
    holds if a call runs out of fuel — which none does when [F] is
    [False]. *)
Definition obeys {A} (P : @Event E -> Prop) (R : relation (@State E)) (F : Prop)
    (m : M A) : Prop :=
  ∀ s, Forall P (trace m s)
       ∧ (∀ a s', outcome m s = Returns (a, s') → R s s')
       ∧ (outcome m s = OutOfFuel → F).

(** The events of round [i] of the loop of [train_component]. *)
Definition iteration_events (self : Trainer) (name : ModelName) (i : Z) : list (@Event E) :=
  let cfg := component (_cfg self) name in
  ModelCall name ::
    if bool_decide ((i + 1) `mod` grad_acc_steps cfg = 0) then
      match max_grad_norm cfg with Some _ => [ClipGradNorm name] | None => [] end
      ++ [OptStep name; OptZeroGrad name]
      ++ (if lr_sched_present E name then [LrSchedStep name] else [])
    else [].

(** The rounds of [range(n)] at which the accumulated gradient is applied
    for [grad_acc_steps = g]. *)
Definition applied_rounds (g n : Z) : list Z :=
  filter (fun i => (i + 1) `mod` g = 0) (Py.range n).

(** The step budget [train_agent] hands to [train_component]. *)
Definition budget (self : Trainer) (epoch : Z) (name : ModelName) : Z :=
  let cfg := component (_cfg self) name in
  if bool_decide (epoch = 1) then steps_first_epoch cfg else steps_per_epoch cfg.

(** A model's [start_after_epochs] has been passed. *)
Definition started (self : Trainer) (epoch : Z) (name : ModelName) : Prop :=
  start_after_epochs (component (_cfg self) name) < epoch.

#[global] Instance started_dec self epoch name : Decision (started self epoch name).
Proof. unfold started. apply _. Defined.

(** The models [train_agent] goes through. *)
Definition trained_models (self : Trainer) : list ModelName :=
  if _is_model_free self then [actor_critic] else [denoiser; rew_end_model; actor_critic].

(** The events that mark an epoch and the evaluation made in it. *)
Definition is_marker (ev : @Event E) : bool :=
  match ev with
  | StartEpoch _ _ | CollectTest _ _ | TestAgent _ => true
  | _ => false
  end.

(** Epoch [e] is one at which rank 0 evaluates. *)
Definition evaluation_due (self : Trainer) (e : Z) : Prop :=
  _rank self = 0 ∧ evaluation_should (_cfg self) = true
  ∧ e `mod` evaluation_every (_cfg self) = 0.

(** ... collects test episodes first: the dataset is not static. *)
Definition test_collection_due (self : Trainer) (e : Z) : Prop :=
  evaluation_due self e ∧ _is_static_dataset self = false.

(** ... and runs [test_agent]: the agent is not model-free. *)
Definition test_agent_due (self : Trainer) (e : Z) : Prop :=
  evaluation_due self e ∧ _is_model_free self = false.

#[global] Instance evaluation_due_dec self e : Decision (evaluation_due self e).
Proof. unfold evaluation_due. apply _. Defined.

#[global] Instance test_collection_due_dec self e : Decision (test_collection_due self e).
Proof. unfold test_collection_due. apply _. Defined.

#[global] Instance test_agent_due_dec self e : Decision (test_agent_due self e).
Proof. unfold test_agent_due. apply _. Defined.

(** The markers of epoch [e] of a loop bounded by [n], in order. *)
Definition epoch_markers (self : Trainer) (n e : Z) : list (@Event E) :=
  [StartEpoch e n]
  ++ (if decide (test_collection_due self e) then [CollectTest false e] else [])
  ++ (if decide (test_agent_due self e) then [TestAgent e] else []).

(** *** Statements that the code does not meet as they stand *)

(** [train_agent] trains a component if and only if its
    [start_after_epochs] has been passed. *)
Definition trains_iff_started (self : Trainer) (s : @State E) : Prop :=
  ∀ name,
    (∃ steps, TrainComponent name steps ∈ trace (train_agent self) s)
    ↔ started self (epoch s) name.

(** [test_agent] is run exactly at the epochs that are multiples of
    [evaluation.every]. *)
Definition tests_iff_multiple (self : Trainer) (fuel : nat) (n : Z) (s : @State E) : Prop :=
  omap test_agent_epoch (trace (epoch_loop self fuel n []) s)
    = filter (λ e, e `mod` evaluation_every (_cfg self) = 0) (epochs_between (epoch s) n).

(** [run] makes exactly one final test collection. *)
Definition one_final_collection (self : Trainer) (fuel : nat) (s : @State E) : Prop :=
  count is_final_collect (trace (run self fuel) s) = 1%nat.

(** *** The initial collection, as the specification words it *)

(** The state the train collector leaves when asked for [steps] steps. *)
Definition collected (steps : Z) (s : @State E) : @State E :=
  let '(w, d, _) := train_collector_send E (of_steps steps) (world s) (train_dataset s) in
  set_train_dataset d (set_world w s).

(** The state after [k] increments, the first of [steps] steps and the
    later ones of [steps_per_epoch] steps. *)
Fixpoint after_increments (self : Trainer) (k : nat) (steps : Z) (s : @State E) : @State E :=
  match k with
  | O => s
  | S k =>
      after_increments self k (ct_steps_per_epoch (collection_train (_cfg self)))
        (collected steps s)
  end.

(** The requests made for [k] increments. *)
Definition requests (self : Trainer) (k : nat) (steps : Z) : list (@Event E) :=
  match k with
  | O => []
  | S k =>
      TrainCollectorSend (of_steps steps)
        :: replicate k (TrainCollectorSend
                          (of_steps (ct_steps_per_epoch (collection_train (_cfg self)))))
  end.

(** Enough minority reward, or the configured maximum of steps reached. *)
Definition stop_rule (self : Trainer) (s : @State E) : Prop :=
  let fe := first_epoch (collection_train (_cfg self)) in
  threshold_rew fe <= sum_all_but_largest (counts_rew E (train_dataset s))
  ∨ ∃ max_steps, fe_max fe = Some max_steps ∧ max_steps <= num_steps E (train_dataset s).

(** The test the loop makes after an increment. *)
Definition stops (self : Trainer) (s : @State E) : bool :=
  let fe := first_epoch (collection_train (_cfg self)) in
  bool_decide (threshold_rew fe <= total_minority_rew (counts_rew E (train_dataset s)))
  || match fe_max fe with
     | Some max_steps => bool_decide (max_steps <= num_steps E (train_dataset s))
     | None => false
     end.

End Vocabulary.

(** ** Vocabulary of the further properties *)

(** The actions of the epoch loop itself: an epoch started, a request to
    the train collector, the telemetry log and the checkpoint of an epoch,
    the barrier. *)
Inductive Step :=
| SStart (e n : Z)
| SCollect (n : NumToCollect)
| SLog (e : Z)
| SCheckpoint (e : Z)
| SBarrier.

Section FurtherVocabulary.
Context {E : Externals}.

Definition step_of (ev : @Event E) : option Step :=
  match ev with
  | StartEpoch e n => Some (SStart e n)
  | TrainCollectorSend n => Some (SCollect n)
  | WandbLog _ e => Some (SLog e)
  | SaveCheckpoint e => Some (SCheckpoint e)
  | Barrier => Some SBarrier
  | _ => None
  end.

(** Epoch [e] is one at which training steps are collected: on rank 0, for
    an agent that is not model-free and a dataset that is not static,
    while [e] is within the [nec] collection epochs. *)
Definition collection_due (self : Trainer) (nec : option Z) (e : Z) : Prop :=
  match nec with
  | Some k =>
      _rank self = 0 ∧ _is_model_free self = false ∧ _is_static_dataset self = false
      ∧ e <= k
  | None => False
  end.

#[global] Instance collection_due_dec self nec e : Decision (collection_due self nec e).
Proof. unfold collection_due. destruct nec; apply _. Defined.

(** The actions of epoch [e] of a loop bounded by [n], in order. *)
Definition epoch_steps (self : Trainer) (nec : option Z) (n e : Z) : list Step :=
  [SStart e n]
  ++ (if decide (collection_due self nec e)
      then [SCollect (of_steps (ct_steps_per_epoch (collection_train (_cfg self))))]
      else [])
  ++ (if decide (_rank self = 0) then [SLog e; SCheckpoint e] else [])
  ++ (if dist_is_initialized E then [SBarrier] else []).

(** A call that leaves [self.epoch] and [self.num_epochs_collect] alone. *)
Definition same_schedule : relation (@State E) :=
  fun s s' => epoch s' = epoch s ∧ num_epochs_collect s' = num_epochs_collect s.

(** A call that leaves the schedule, the datasets and the count of test
    episodes alone: it changes the world and the batch counters at
    most. *)
Definition same_data : relation (@State E) :=
  fun s s' =>
    epoch s' = epoch s ∧ num_epochs_collect s' = num_epochs_collect s
    ∧ num_episodes_test s' = num_episodes_test s
    ∧ train_dataset s' = train_dataset s ∧ test_dataset s' = test_dataset s.

(** The counter of [name] advanced by [k], the others as they were. *)
Definition advanced (c : CommonTools.t Z) (name : ModelName) (k : Z) : CommonTools.t Z :=
  CommonTools.set c name (CommonTools.get c name + k).

(** The events of [test_component] over the batches of [td]. *)
Definition test_component_events (name : ModelName) (td : Dataset E) : list (@Event E) :=
  TestComponent name :: replicate (length (traverse E name td)) (ModelEval name).

(** The number of batches [test_component] goes through. *)
Definition num_test_batches (name : ModelName) (td : Dataset E) : Z :=
  Z.of_nat (length (traverse E name td)).

(** The models [test_agent] goes through. *)
Definition tested_models (self : Trainer) : list ModelName :=
  if _is_model_free self then [] else [denoiser; rew_end_model].

Definition is_train_collect (ev : @Event E) : bool :=
  match ev with TrainCollectorSend _ => true | _ => false end.

(** What is written outside the process: telemetry and checkpoints. *)
Definition is_output (ev : @Event E) : bool :=
  match ev with WandbLog _ _ | SaveCheckpoint _ | WandbFinish => true | _ => false end.

End FurtherVocabulary.

(** * Facts about the Python primitives *)

Lemma largest_is_max x l : is_max (largest x l) (x :: l).
Proof.
  induction l as [|y l [Hin Hle]]; simpl.
  - split; [left|]. intros y Hy. apply list_elem_of_singleton in Hy. lia.
  - split.
    + destruct (Z.max_spec y (largest x l)) as [[_ ->]|[_ ->]].
      * apply elem_of_cons in Hin as [->|Hin]; [left|do 2 right; exact Hin].
      * right; left.
    + intros z Hz. apply elem_of_cons in Hz as [->|Hz].
      * specialize (Hle x (list_elem_of_here _ _)). unfold largest in *. lia.
      * apply elem_of_cons in Hz as [->|Hz]; [lia|].
        specialize (Hle z (list_elem_of_further _ _ _ Hz)). unfold largest in *. lia.
Qed.

Lemma is_max_unique m m' l : is_max m l → is_max m' l → m = m'.
Proof. intros [Hin Hle] [Hin' Hle']. specialize (Hle _ Hin'). specialize (Hle' _ Hin). lia. Qed.

Lemma sum_app l k : Py.sum (l ++ k) = Py.sum l + Py.sum k.
Proof. unfold Py.sum. induction l; simpl; lia. Qed.

Lemma sum_Permutation l k : l ≡ₚ k → Py.sum l = Py.sum k.
Proof. unfold Py.sum. induction 1; simpl; lia. Qed.

Lemma but_last_snoc {A} (l : list A) x : Py.but_last (l ++ [x]) = l.
Proof.
  unfold Py.but_last. apply take_app_length'.
  rewrite length_app. simpl. lia.
Qed.

(** The expression of the source, [sum(sorted(counts)[:-1])], is the sum
    of all buckets but a largest one. *)
Lemma total_minority_rew_spec counts :
  total_minority_rew counts = sum_all_but_largest counts.
Proof.
  unfold total_minority_rew, Py.sorted.
  pose proof (merge_sort_Permutation Z.le counts) as Hperm.
  pose proof (StronglySorted_merge_sort Z.le counts) as Hsort.
  destruct counts as [|x l].
  { apply Permutation_nil_r in Hperm. rewrite Hperm. reflexivity. }
  destruct (merge_sort Z.le (x :: l)) as [|z init _] using rev_ind.
  { symmetry in Hperm. apply Permutation_nil_r in Hperm. discriminate. }
  rewrite but_last_snoc.
  change (sum_all_but_largest (x :: l)) with (Py.sum (x :: l) - largest x l).
  rewrite <- (sum_Permutation _ _ Hperm), sum_app.
  assert (is_max z (x :: l)) as Hz.
  { split.
    - rewrite <- Hperm. apply elem_of_app. right. left.
    - intros y Hy. rewrite <- Hperm in Hy.
      apply elem_of_app in Hy as [Hy|Hy].
      + eapply (StronglySorted_app_1_elem_of Z.le); [exact Hsort|exact Hy|left].
      + apply list_elem_of_singleton in Hy. lia. }
  rewrite (is_max_unique _ _ _ (largest_is_max x l) Hz).
  unfold Py.sum. simpl. lia.
Qed.

(** * Facts about the monad *)

Section MonadFacts.
Context {E : Externals}.
Implicit Types (s : @State E) (P : @Event E → Prop) (R : relation (@State E)) (F : Prop).

#[global] Instance same_epoch_preorder : PreOrder (@same_epoch E).
Proof. split; unfold same_epoch; [intros s|intros s1 s2 s3 H1 H2]; congruence. Qed.

#[global] Instance anything_preorder : PreOrder (@anything E).
Proof. split; unfold anything; red; auto. Qed.

Lemma bind_inv {A B} (m : M A) (k : A → M B) s t b s' :
  bind m k s = (t, Returns (b, s')) →
  ∃ t1 a s1 t2, m s = (t1, Returns (a, s1)) ∧ k a s1 = (t2, Returns (b, s')) ∧ t = t1 ++ t2.
Proof.
  unfold bind. destruct (m s) as [t1 [[a s1]|e|]]; [|discriminate..].
  destruct (k a s1) as [t2 o] eqn:Hk. intros [= <- ->]. eauto 10.
Qed.

Lemma bind_returns {A B} (m : M A) (k : A → M B) s t1 a s1 :
  m s = (t1, Returns (a, s1)) →
  bind m k s = (t1 ++ fst (k a s1), snd (k a s1)).
Proof. unfold bind. intros ->. destruct (k a s1); reflexivity. Qed.

Lemma obeys_weaken {A} P Q R F (m : M A) :
  (∀ ev, P ev → Q ev) → obeys P R F m → obeys Q R F m.
Proof.
  intros HPQ Hm s. destruct (Hm s) as [Ht Hs]. split; [|exact Hs].
  eapply Forall_impl; eauto.
Qed.

Lemma obeys_relax {A} P Q R R' F (m : M A) :
  (∀ ev, P ev → Q ev) → (∀ s s', R s s' → R' s s') → obeys P R F m → obeys Q R' F m.
Proof.
  intros HPQ HR Hm s. destruct (Hm s) as (Ht & Hs & Hf). split; [|split; [|exact Hf]].
  - eapply Forall_impl; eauto.
  - intros a s' Ho. eapply HR, Hs, Ho.
Qed.

Lemma obeys_anything {A} P R F (m : M A) : obeys P R F m → obeys P anything F m.
Proof.
  intros Hm s. destruct (Hm s) as (Ht & _ & Hf). split; [exact Ht|]. split; [|exact Hf].
  intros; exact I.
Qed.

Lemma obeys_ret {A} P R F `{!Reflexive R} (a : A) : obeys P R F (ret a).
Proof.
  intros s. split; [constructor|]. split; [|discriminate].
  intros a' s' [= _ <-]. reflexivity.
Qed.

Lemma obeys_bind {A B} P R F `{!Transitive R} (m : M A) (k : A → M B) :
  obeys P R F m → (∀ a, obeys P R F (k a)) → obeys P R F (bind m k).
Proof.
  intros Hm Hk s. unfold trace, outcome, bind.
  destruct (Hm s) as (Ht & Hs & Hf). unfold trace, outcome in Ht, Hs, Hf.
  destruct (m s) as [t1 [[a s1]|e|]]; simpl in *;
    [|split; [done|split; [discriminate|first [discriminate|auto]]]..].
  destruct (Hk a s1) as (Ht' & Hs' & Hf'). unfold trace, outcome in Ht', Hs', Hf'.
  destruct (k a s1) as [t2 o]; simpl in *. split; [|split].
  - apply Forall_app; done.
  - intros b s' ->. etrans; eauto.
  - done.
Qed.

Lemma obeys_raise {A} P R F e : obeys P R F (raise (A := A) e).
Proof. intros s. split; [constructor|]. split; discriminate. Qed.

Lemma obeys_out_of_fuel {A} P R F : F → obeys P R F (out_of_fuel (A := A)).
Proof. intros HF s. split; [constructor|]. split; [discriminate|done]. Qed.

Lemma obeys_lift {A} P R F `{!Reflexive R} (r : Py.Exc + A) : obeys P R F (lift r).
Proof. destruct r; [apply obeys_raise|by apply obeys_ret]. Qed.

Lemma obeys_assert P R F `{!Reflexive R} b : obeys P R F (assert_ b).
Proof. destruct b; [by apply obeys_ret|apply obeys_raise]. Qed.

Lemma obeys_emit P R F `{!Reflexive R} ev : P ev → obeys P R F (emit ev).
Proof.
  intros Hev s. split; [repeat constructor; done|]. split; [|discriminate].
  intros a s' [= _ <-]. reflexivity.
Qed.

Lemma obeys_gets {A} P R F `{!Reflexive R} (f : State → A) : obeys P R F (gets f).
Proof.
  intros s. split; [constructor|]. split; [|discriminate].
  intros a s' [= _ <-]. reflexivity.
Qed.

Lemma obeys_modify P R F (f : State → State) : (∀ s, R s (f s)) → obeys P R F (modify f).
Proof.
  intros Hf s. split; [constructor|]. split; [|discriminate].
  intros a s' [= _ <-]. apply Hf.
Qed.

Lemma obeys_when P R F `{!Reflexive R} b (m : M unit) :
  obeys P R F m → obeys P R F (when b m).
Proof. destruct b; [done|]. intros _. by apply obeys_ret. Qed.

Lemma obeys_call_world {A} P R F evs (f : World E → World E * A) :
  Forall P evs → (∀ s w, R s (set_world w s)) → obeys P R F (call_world evs f).
Proof.
  intros Hevs HR s. unfold trace, outcome, call_world.
  destruct (f (world s)) as [w a]; simpl. split; [done|]. split; [|discriminate].
  intros a' s' [= _ <-]. apply HR.
Qed.

Lemma obeys_in_world P R F evs (f : World E → World E) :
  Forall P evs → (∀ s w, R s (set_world w s)) → obeys P R F (in_world evs f).
Proof. apply obeys_call_world. Qed.

Lemma obeys_for_each_elem {A B} P R F `{!PreOrder R} (l : list A)
    (body : A → B → M B) acc :
  (∀ x acc, x ∈ l → obeys P R F (body x acc)) → obeys P R F (for_each l body acc).
Proof.
  revert acc. induction l as [|x l IH]; intros acc Hbody; simpl.
  - apply obeys_ret, _.
  - apply obeys_bind; [apply _|apply Hbody; left|].
    intros a. apply IH. intros y acc' Hy. apply Hbody. by right.
Qed.

Lemma obeys_train_collector_send P R F n :
  P (TrainCollectorSend n) → (∀ s w d, R s (set_train_dataset d (set_world w s))) →
  obeys P R F (train_collector_send_ n).
Proof.
  intros HP HR s. unfold trace, outcome, train_collector_send_.
  destruct (train_collector_send E n (world s) (train_dataset s)) as [[w d] logs]; simpl.
  split; [repeat constructor; done|]. split; [|discriminate].
  intros a s' [= _ <-]. apply HR.
Qed.

Lemma obeys_test_collector_send P R F n :
  P (TestCollectorSend n) → (∀ s w d, R s (set_test_dataset d (set_world w s))) →
  obeys P R F (test_collector_send_ n).
Proof.
  intros HP HR s. unfold trace, outcome, test_collector_send_.
  destruct (test_collector_send E n (world s) (test_dataset s)) as [[w d] logs]; simpl.
  split; [repeat constructor; done|]. split; [|discriminate].
  intros a s' [= _ <-]. apply HR.
Qed.

(** Equations to run a method step by step. *)
Lemma bind_ret_l {A B} (a : A) (k : A → M B) s : bind (ret a) k s = k a s.
Proof. unfold bind, ret. by destruct (k a s). Qed.

Lemma bind_gets {A B} (f : State → A) (k : A → M B) s : bind (gets f) k s = k (f s) s.
Proof. unfold bind, gets. by destruct (k (f s) s). Qed.

Lemma bind_modify {B} (f : State → State) (k : unit → M B) s :
  bind (modify f) k s = k tt (f s).
Proof. unfold bind, modify. by destruct (k tt (f s)). Qed.

Lemma bind_emit {B} ev (k : unit → M B) s :
  bind (emit ev) k s = (ev :: fst (k tt s), snd (k tt s)).
Proof. unfold bind, emit. by destruct (k tt s). Qed.

Lemma bind_call_world {A B} evs (f : World E → World E * A) (k : A → M B) s :
  bind (call_world evs f) k s =
    (evs ++ fst (k (f (world s)).2 (set_world (f (world s)).1 s)),
     snd (k (f (world s)).2 (set_world (f (world s)).1 s))).
Proof.
  unfold bind, call_world. destruct (f (world s)) as [w a]; simpl.
  by destruct (k a (set_world w s)).
Qed.

Lemma bind_in_world {B} evs (f : World E → World E) (k : unit → M B) s :
  bind (in_world evs f) k s =
    (evs ++ fst (k tt (set_world (f (world s)) s)),
     snd (k tt (set_world (f (world s)) s))).
Proof. unfold in_world. by rewrite bind_call_world. Qed.

Lemma bind_assoc {A B C} (m : M A) (k : A → M B) (k' : B → M C) s :
  bind (bind m k) k' s = bind m (λ a, bind (k a) k') s.
Proof.
  unfold bind. destruct (m s) as [t1 [[a s1]|e|]]; [|done..].
  destruct (k a s1) as [t2 [[b s2]|e|]]; [|done..].
  destruct (k' b s2) as [t3 o]. by rewrite app_assoc.
Qed.

Lemma bind_raise {A B} e (k : A → M B) s : bind (raise e) k s = ([], Raises e).
Proof. reflexivity. Qed.

Lemma bind_train_collector_send {B} n (k : _ → M B) s :
  bind (train_collector_send_ n) k s =
    let r := train_collector_send E n (world s) (train_dataset s) in
    let s1 := set_train_dataset r.1.2 (set_world r.1.1 s) in
    (TrainCollectorSend n :: fst (k r.2 s1), snd (k r.2 s1)).
Proof.
  unfold bind, train_collector_send_.
  destruct (train_collector_send E n (world s) (train_dataset s)) as [[w d] logs]; simpl.
  by destruct (k logs _).
Qed.

Lemma bind_test_collector_send {B} n (k : _ → M B) s :
  bind (test_collector_send_ n) k s =
    let r := test_collector_send E n (world s) (test_dataset s) in
    let s1 := set_test_dataset r.1.2 (set_world r.1.1 s) in
    (TestCollectorSend n :: fst (k r.2 s1), snd (k r.2 s1)).
Proof.
  unfold bind, test_collector_send_.
  destruct (test_collector_send E n (world s) (test_dataset s)) as [[w d] logs]; simpl.
  by destruct (k logs _).
Qed.

Lemma obeys_bind_ret {A B} P R F (a : A) (k : A → M B) :
  obeys P R F (k a) → obeys P R F (bind (ret a) k).
Proof. intros Hk s. unfold trace, outcome. rewrite bind_ret_l. apply Hk. Qed.

(** What a returning call tells. *)
Lemma obeys_inv {A} P R {F} (m : M A) s t a s' :
  obeys P R F m → m s = (t, Returns (a, s')) → Forall P t ∧ R s s'.
Proof.
  intros Hm Hs. destruct (Hm s) as (Ht & HR & _). unfold trace, outcome in *.
  rewrite Hs in *. simpl in *. split; [done|]. by eapply HR.
Qed.

Lemma silent_inv {A} {F} (m : M A) s t a s' :
  obeys (λ _, False) eq F m → m s = (t, Returns (a, s')) → t = [] ∧ s' = s.
Proof.
  intros Hm Hs. destruct (obeys_inv _ _ _ _ _ _ _ Hm Hs) as [Ht ->]. split; [|done].
  destruct t; [done|]. by apply Forall_cons in Ht as [[] _].
Qed.

Lemma ret_inv {A} (a : A) s t a' s' :
  ret a s = (t, Returns (a', s')) → t = [] ∧ a' = a ∧ s' = s.
Proof. by intros [= <- <- <-]. Qed.

Lemma gets_inv {A} (f : State → A) s t a s' :
  gets f s = (t, Returns (a, s')) → t = [] ∧ a = f s ∧ s' = s.
Proof. by intros [= <- <- <-]. Qed.

Lemma modify_inv (f : State → State) s t a s' :
  modify f s = (t, Returns (a, s')) → t = [] ∧ s' = f s.
Proof. by intros [= <- <-]. Qed.

Lemma emit_inv ev s t a s' : emit ev s = (t, Returns (a, s')) → t = [ev] ∧ s' = s.
Proof. by intros [= <- <-]. Qed.

(** A projection of a trace whose events it all discards. *)
Lemma omap_discards {X} (f : @Event E → option X) (t : list Event) :
  Forall (λ ev, f ev = None) t → omap f t = [].
Proof. induction 1 as [|ev t Hev _ IH]; simpl; [done|]. by rewrite Hev. Qed.

Lemma count_discards (p : @Event E → bool) (t : list Event) :
  Forall (λ ev, p ev = false) t → count p t = 0%nat.
Proof.
  unfold count. induction 1 as [|ev t Hev _ IH]; [done|].
  rewrite filter_cons_False; [done|]. rewrite Hev. discriminate.
Qed.

End MonadFacts.

(** * The initial collection *)

Section InitialCollection.
Context {E : Externals}.
Implicit Types (s : @State E) (self : Trainer).

Lemma stops_spec self s : stops self s = true ↔ stop_rule self s.
Proof.
  unfold stops, stop_rule. rewrite total_minority_rew_spec.
  rewrite orb_true_iff, bool_decide_eq_true.
  destruct (fe_max (first_epoch (collection_train (_cfg self)))) as [m|].
  - rewrite bool_decide_eq_true. split; (intros [H|H]; [by left|right]).
    + by exists m.
    + by destruct H as (m' & [= ->] & H).
  - split; (intros [H|H]; [by left|]); [done|]. by destruct H as (m' & [=] & _).
Qed.

(** One round of the loop: a request, then the test on what the collector
    left. *)
Lemma collect_initial_loop_round self fuel steps to_log s :
  ∃ logs,
    collect_initial_loop self (S fuel) steps to_log s =
      if stops self (collected steps s) then
        ([TrainCollectorSend (of_steps steps)],
         Returns ((num_steps E (train_dataset (collected steps s)), logs), collected steps s))
      else
        (TrainCollectorSend (of_steps steps) ::
           fst (collect_initial_loop self fuel
                  (ct_steps_per_epoch (collection_train (_cfg self))) logs (collected steps s)),
         snd (collect_initial_loop self fuel
                (ct_steps_per_epoch (collection_train (_cfg self))) logs (collected steps s))).
Proof.
  unfold stops, collected. simpl. unfold bind at 1, train_collector_send_.
  destruct (train_collector_send E (of_steps steps) (world s) (train_dataset s))
    as [[w d] logs].
  exists (to_log ++ logs). simpl. unfold bind at 1, gets; simpl.
  destruct (bool_decide (threshold_rew _ <= _)); simpl; [reflexivity|].
  destruct (fe_max _) as [m|]; [destruct (bool_decide (m <= _))|]; simpl; try reflexivity.
  all: destruct (collect_initial_loop _ _ _ _ _); reflexivity.
Qed.

Lemma collect_initial_loop_stops self fuel : ∀ steps to_log s (k : nat),
  (1 <= k <= fuel)%nat →
  stop_rule self (after_increments self k steps s) →
  (∀ j : nat, (1 <= j < k)%nat → ¬ stop_rule self (after_increments self j steps s)) →
  ∃ logs,
    collect_initial_loop self fuel steps to_log s =
      (requests self k steps,
       Returns ((num_steps E (train_dataset (after_increments self k steps s)), logs),
                after_increments self k steps s)).
Proof.
  induction fuel as [|fuel IH]; intros steps to_log s k Hk Hstop Hfirst; [lia|].
  destruct (collect_initial_loop_round self fuel steps to_log s) as [logs ->].
  destruct k as [|k]; [lia|]. simpl in Hstop.
  destruct (stops self (collected steps s)) eqn:Hs.
  - destruct k as [|k]; [by eexists|].
    exfalso. apply (Hfirst 1%nat); [lia|]. simpl. by apply stops_spec.
  - destruct k as [|k].
    { simpl in Hstop. apply stops_spec in Hstop. congruence. }
    destruct (IH (ct_steps_per_epoch (collection_train (_cfg self))) logs
                (collected steps s) (S k)) as [logs' ->]; [lia|exact Hstop| |by eexists].
    intros j Hj. apply (Hfirst (S j)). lia.
Qed.

Lemma collect_initial_loop_goes_on self fuel : ∀ steps to_log s,
  (∀ j : nat, (1 <= j <= fuel)%nat → ¬ stop_rule self (after_increments self j steps s)) →
  collect_initial_loop self fuel steps to_log s = (requests self fuel steps, OutOfFuel).
Proof.
  induction fuel as [|fuel IH]; intros steps to_log s Hnone; [reflexivity|].
  destruct (collect_initial_loop_round self fuel steps to_log s) as [logs ->].
  destruct (stops self (collected steps s)) eqn:Hs.
  { exfalso. apply (Hnone 1%nat); [lia|]. simpl. by apply stops_spec. }
  rewrite IH.
  - destruct fuel; reflexivity.
  - intros j Hj. apply (Hnone (S j)). lia.
Qed.

(** The loop yields the step count of the dataset it leaves. *)
Lemma collect_initial_loop_num_steps self fuel : ∀ steps to_log s t n logs s',
  collect_initial_loop self fuel steps to_log s = (t, Returns ((n, logs), s')) →
  n = num_steps E (train_dataset s').
Proof.
  induction fuel as [|fuel IH]; intros steps to_log s t n logs s'; [discriminate|].
  destruct (collect_initial_loop_round self fuel steps to_log s) as [logs0 ->].
  destruct (stops self (collected steps s)).
  - by intros [= _ <- _ <-].
  - destruct (collect_initial_loop self fuel _ logs0 (collected steps s)) as [t' o] eqn:Hl.
    simpl. intros [= _ ->]. eapply IH, Hl.
Qed.

(** C3: [collect_initial_dataset] does not return when the first-epoch
    minimum is not a multiple of [steps_per_epoch] — the remainder is not
    zero, or cannot be taken because [steps_per_epoch] is zero: it raises
    before any collection is made, and what it raises is the
    [AssertionError] of its first assertion unless [steps_per_epoch] is
    zero. *)
Theorem collect_initial_dataset_divisibility self fuel s :
  let c := collection_train (_cfg self) in
  Py.mod_ (fe_min (first_epoch c)) (ct_steps_per_epoch c) ≠ inr 0 →
  ∃ e, collect_initial_dataset self fuel s = ([], Raises e)
       ∧ (ct_steps_per_epoch c ≠ 0 → e = Py.AssertionError).
Proof.
  intros c Hmod. unfold collect_initial_dataset. fold c.
  destruct (Py.mod_ (fe_min (first_epoch c)) (ct_steps_per_epoch c)) as [e|r] eqn:Hr.
  - exists e. split; [done|]. intros Hne. unfold Py.mod_ in Hr.
    by destruct (decide (ct_steps_per_epoch c = 0)).
  - exists Py.AssertionError. split; [|done]. unfold bind at 1. simpl.
    rewrite bool_decide_eq_false_2 by congruence. reflexivity.
Qed.

(** C4: the loop of [collect_initial_dataset] asks for [min_steps] steps,
    then for [steps_per_epoch] steps each time, and is left after the
    first increment at which the sum of all reward buckets but the largest
    has reached [threshold_rew] or the step count the configured maximum:
    if that is the [k]-th increment, the loop makes [k] requests and
    yields the dataset's step count; as long as no increment meets the
    rule, it keeps collecting. *)
Theorem collect_initial_loop_stops_exactly self fuel to_log s :
  let min_steps := fe_min (first_epoch (collection_train (_cfg self))) in
  (∀ k : nat,
     (1 <= k <= fuel)%nat →
     stop_rule self (after_increments self k min_steps s) →
     (∀ j : nat, (1 <= j < k)%nat → ¬ stop_rule self (after_increments self j min_steps s)) →
     ∃ logs,
       collect_initial_loop self fuel min_steps to_log s =
         (requests self k min_steps,
          Returns ((num_steps E (train_dataset (after_increments self k min_steps s)), logs),
                   after_increments self k min_steps s)))
  ∧ ((∀ j : nat, (1 <= j <= fuel)%nat →
        ¬ stop_rule self (after_increments self j min_steps s)) →
     collect_initial_loop self fuel min_steps to_log s
       = (requests self fuel min_steps, OutOfFuel)).
Proof.
  intros min_steps. split.
  - intros k. apply collect_initial_loop_stops.
  - apply collect_initial_loop_goes_on.
Qed.

(** C5: once its loop is left with [num_steps] steps in the dataset,
    [collect_initial_dataset] returns
    [(num_steps_total - num_steps) // steps_per_epoch] when
    [steps_per_epoch] divides the remaining steps, and raises an
    [AssertionError] when it does not. *)
Theorem collect_initial_dataset_num_epochs self fuel s t n logs s' :
  let c := collection_train (_cfg self) in
  let remaining_steps := num_steps_total c - num_steps E (train_dataset s') in
  Py.mod_ (fe_min (first_epoch c)) (ct_steps_per_epoch c) = inr 0 →
  collect_initial_loop self fuel (fe_min (first_epoch c)) [] s = (t, Returns ((n, logs), s')) →
  collect_initial_dataset self fuel s =
    (t, if decide (remaining_steps `mod` ct_steps_per_epoch c = 0)
        then Returns ((remaining_steps `div` ct_steps_per_epoch c, logs), s')
        else Raises Py.AssertionError).
Proof.
  intros c remaining_steps Hmod Hloop.
  pose proof (collect_initial_loop_num_steps _ _ _ _ _ _ _ _ _ Hloop) as ->.
  unfold collect_initial_dataset. fold c. rewrite Hmod.
  unfold bind at 1. simpl. unfold bind at 1. simpl.
  erewrite bind_returns by exact Hloop. cbv beta iota. fold remaining_steps.
  assert (ct_steps_per_epoch c ≠ 0) as Hne.
  { unfold Py.mod_ in Hmod. by destruct (decide (ct_steps_per_epoch c = 0)). }
  unfold Py.mod_, Py.floordiv. destruct (decide (ct_steps_per_epoch c = 0)); [done|].
  destruct (decide (remaining_steps `mod` ct_steps_per_epoch c = 0)) as [Hd|Hd].
  - unfold lift, bind, ret; simpl. rewrite bool_decide_eq_true_2 by done.
    simpl. by rewrite app_nil_r.
  - unfold lift, bind, ret; simpl. rewrite bool_decide_eq_false_2 by done.
    simpl. by rewrite app_nil_r.
Qed.

End InitialCollection.

(** * Training *)

Ltac obeys_step :=
  lazymatch goal with
  | |- obeys _ _ _ (bind (ret _) _) =>
      apply obeys_bind_ret; cbv beta iota delta [andb]
  | |- obeys _ _ _ (bind _ _) => apply obeys_bind; [apply _ | | intros ?]
  | |- obeys _ _ _ (ret _) => apply obeys_ret; apply _
  | |- obeys _ _ _ (raise _) => apply obeys_raise
  | |- obeys _ _ _ out_of_fuel => apply obeys_out_of_fuel; try exact I
  | |- obeys _ _ _ (lift _) => apply obeys_lift; apply _
  | |- obeys _ _ _ (assert_ _) => apply obeys_assert; apply _
  | |- obeys _ _ _ (gets _) => apply obeys_gets; apply _
  | |- obeys _ _ _ (emit _) => apply obeys_emit; [apply _ | ]
  | |- obeys _ _ _ (modify _) => apply obeys_modify; intros ?
  | |- obeys _ _ _ (when _ _) => apply obeys_when; [apply _ | ]
  | |- obeys _ _ _ (call_world _ _) => apply obeys_call_world; [ | intros ? ?]
  | |- obeys _ _ _ (in_world _ _) => apply obeys_in_world; [ | intros ? ?]
  | |- obeys _ _ _ (for_each _ _ _) => apply obeys_for_each_elem; [apply _ | intros ? ? ?]
  | |- obeys _ _ _ (train_collector_send_ _) =>
      apply obeys_train_collector_send; [ | intros ? ? ?]
  | |- obeys _ _ _ (test_collector_send_ _) =>
      apply obeys_test_collector_send; [ | intros ? ? ?]
  | |- obeys _ _ _ (if ?b then _ else _) => destruct b
  | |- obeys _ _ _ (match ?x with _ => _ end) => destruct x
  end.

Ltac obeys_side :=
  lazymatch goal with
  | |- obeys _ _ _ _ => idtac
  | |- _ => try (solve [ repeat constructor; simpl; auto
                       | unfold same_epoch, anything; simpl; auto ])
  end.

Ltac obeys_auto := repeat (obeys_step; obeys_side).

(** Running the head of a chain of binds. *)
Ltac run_step :=
  first
    [ rewrite bind_assoc
    | rewrite bind_ret_l
    | rewrite bind_gets
    | rewrite bind_modify
    | rewrite bind_emit
    | rewrite bind_in_world
    | rewrite bind_call_world
    | rewrite bind_train_collector_send
    | rewrite bind_test_collector_send
    | rewrite bind_raise ];
  cbv beta zeta; cbn [fst snd].

Ltac bind_inv H H1 :=
  let t1 := fresh "t" in
  let a := fresh "a" in
  let s1 := fresh "s" in
  let t2 := fresh "t" in
  apply bind_inv in H as (t1 & a & s1 & t2 & H1 & H & ->); cbv beta in H.

Ltac run := repeat run_step.

Section Training.
Context {E : Externals}.
Implicit Types (s : @State E) (self : Trainer) (name : ModelName) (ev : @Event E).

Lemma train_iteration_obeys self name i to_log (F : Prop) :
  obeys (λ ev, is_training ev = true ∧ event_model ev = Some name) same_epoch F
    (train_iteration self name i to_log).
Proof. unfold train_iteration. obeys_auto. Qed.

Lemma train_component_obeys self name steps (F : Prop) :
  obeys (λ ev, is_training ev = true ∧ event_model ev = Some name) same_epoch F
    (train_component self name steps).
Proof.
  unfold train_component. obeys_auto. apply train_iteration_obeys.
Qed.

(** With a non-zero [grad_acc_steps] a round of the loop returns, and its
    events are those of [iteration_events]. *)
Lemma train_iteration_run self name i to_log s :
  grad_acc_steps (component (_cfg self) name) ≠ 0 →
  ∃ metrics s',
    train_iteration self name i to_log s
      = (iteration_events self name i, Returns (to_log ++ [metrics], s')).
Proof.
  intros Hg. unfold train_iteration, iteration_events, Py.mod_, lift.
  destruct (decide (grad_acc_steps (component (_cfg self) name) = 0)); [done|].
  destruct (CommonTools.get _data_loader_train name); run.
  all: match goal with
       | |- context [model_call _ _ ?b ?w] =>
           destruct (model_call E name b w) as [w1 [loss metrics]]
       end; cbn [fst snd]; run.
  all: destruct (bool_decide _); run; [|unfold ret; simpl; by eexists _, _].
  all: destruct (max_grad_norm _); run.
  all: destruct (lr_sched_present E name); run.
  all: unfold ret; simpl; by eexists _, _.
Qed.

Lemma for_each_train_iteration_run self name (l : list Z) : ∀ to_log s,
  grad_acc_steps (component (_cfg self) name) ≠ 0 →
  ∃ logs s',
    for_each l (train_iteration self name) to_log s
      = (flat_map (iteration_events self name) l, Returns (logs, s')).
Proof.
  induction l as [|i l IH]; intros to_log s Hg; simpl.
  - by eexists _, _.
  - destruct (train_iteration_run self name i to_log s Hg) as (m & s1 & Hi).
    destruct (IH (to_log ++ [m]) s1 Hg) as (logs & s' & Hl).
    exists logs, s'. erewrite bind_returns by exact Hi. by rewrite Hl.
Qed.

(** The trace of [train_component]: whatever [steps] is, the loop makes
    the 1000 rounds of [range(1000)]. *)
Lemma train_component_run self name steps s :
  grad_acc_steps (component (_cfg self) name) ≠ 0 →
  ∃ logs s',
    train_component self name steps s
      = (TrainComponent name steps :: OptZeroGrad name
           :: flat_map (iteration_events self name) (Py.range 1000),
         Returns (logs, s')).
Proof.
  intros Hg. unfold train_component. run.
  match goal with
  | |- context [bind (for_each ?l ?b ?a) _ ?s0] =>
      destruct (for_each_train_iteration_run self name l a s0 Hg) as (logs & s' & Hl)
  end.
  erewrite bind_returns by exact Hl.
  remember (flat_map (iteration_events self name) (Py.range 1000)) as tl eqn:Htl.
  clear Hl Htl. unfold ret; simpl. rewrite app_nil_r. by eexists _, _.
Qed.

Lemma count_cons (p : @Event E → bool) ev (t : list Event) :
  count p (ev :: t) = ((if p ev then 1 else 0) + count p t)%nat.
Proof.
  unfold count. destruct (p ev) eqn:Hp.
  - by rewrite filter_cons_True.
  - rewrite filter_cons_False; [done|]. by rewrite Hp.
Qed.

Lemma count_app (p : @Event E → bool) (t1 t2 : list Event) :
  count p (t1 ++ t2) = (count p t1 + count p t2)%nat.
Proof. unfold count. by rewrite filter_app, length_app. Qed.

Lemma count_model_calls self name (l : list Z) :
  count is_model_call (flat_map (iteration_events self name) l) = length l.
Proof.
  induction l as [|i l IH]; simpl; [done|].
  rewrite count_cons, count_app, IH. simpl. rewrite count_discards; [done|].
  destruct (bool_decide _); [|constructor].
  destruct (max_grad_norm _), (lr_sched_present _ _); repeat constructor.
Qed.

(** Optimiser steps, and with them the zeroing of gradients and the
    advance of the schedule, happen at the rounds [i] with
    [(i + 1) % grad_acc_steps == 0]. *)
Lemma count_applied self name (l : list Z) :
  let g := grad_acc_steps (component (_cfg self) name) in
  let t := flat_map (iteration_events self name) l in
  let n := length (filter (λ i, (i + 1) `mod` g = 0) l) in
  count is_opt_step t = n ∧ count is_opt_zero_grad t = n
  ∧ count is_lr_sched_step t = (if lr_sched_present E name then n else 0%nat).
Proof.
  intros g. induction l as [|i l (IH1 & IH2 & IH3)]; simpl.
  { by destruct (lr_sched_present E name). }
  rewrite !count_cons, !count_app, IH1, IH2, IH3. simpl. fold g.
  destruct (decide ((i + 1) `mod` g = 0)) as [Hi|Hi].
  - rewrite bool_decide_eq_true_2, filter_cons_True by done.
    destruct (max_grad_norm _), (lr_sched_present _ _); simpl; done.
  - rewrite bool_decide_eq_false_2, filter_cons_False by done.
    destruct (lr_sched_present _ _); done.
Qed.

(** C2, at [grad_acc_steps = 4] and [steps = 8]: [train_component] makes
    1000 rounds, not 32, the optimiser steps 250 times, gradients are zeroed
    251 times (once before the loop) and the schedule, if there is one,
    advances 250 times. *)
Theorem train_component_overrides_budget self name s :
  grad_acc_steps (component (_cfg self) name) = 4 →
  ∃ t logs s',
    train_component self name 8 s = (t, Returns (logs, s'))
    ∧ count is_model_call t = 1000%nat
    ∧ count is_opt_step t = 250%nat
    ∧ count is_opt_zero_grad t = 251%nat
    ∧ count is_lr_sched_step t = (if lr_sched_present E name then 250 else 0)%nat.
Proof.
  intros Hg.
  destruct (train_component_run self name 8 s) as (logs & s' & Hrun); [lia|].
  eexists _, logs, s'. split; [exact Hrun|].
  pose proof (count_model_calls self name (Py.range 1000)) as Hc.
  destruct (count_applied self name (Py.range 1000)) as (H1 & H2 & H3).
  rewrite !count_cons, Hc, H1, H2, H3, Hg.
  assert (length (filter (λ i, (i + 1) `mod` 4 = 0) (Py.range 1000)) = 250%nat) as ->
    by (vm_compute; reflexivity).
  assert (length (Py.range 1000) = 1000%nat) as -> by (vm_compute; reflexivity).
  cbn [is_model_call is_opt_step is_opt_zero_grad is_lr_sched_step].
  repeat split; reflexivity.
Qed.

Lemma train_if_started_obeys self name to_log (F : Prop) :
  obeys (λ ev, is_training ev = true ∧ event_model ev = Some name) same_epoch F
    (train_if_started self name to_log).
Proof. unfold train_if_started. obeys_auto. apply train_component_obeys. Qed.

Lemma train_agent_obeys self (F : Prop) :
  obeys (λ ev, is_training ev = true
               ∧ (_is_model_free self = true →
                  event_model ev = None ∨ event_model ev = Some actor_critic))
    same_epoch F (train_agent self).
Proof.
  unfold train_agent. obeys_auto.
  eapply obeys_weaken; [|apply train_if_started_obeys].
  intros ev [Ht Hm]. split; [done|]. intros Hmf. right.
  match goal with H : _ ∈ _ |- _ => rewrite Hmf in H; apply list_elem_of_singleton in H end.
  congruence.
Qed.

Lemma iteration_events_no_call self name (l : list Z) :
  Forall (λ ev, train_component_call ev = None) (flat_map (iteration_events self name) l).
Proof.
  induction l as [|i l IH]; simpl; [constructor|].
  constructor; [done|]. apply Forall_app. split; [|done].
  destruct (bool_decide _); [|constructor].
  destruct (max_grad_norm _), (lr_sched_present _ _); repeat constructor.
Qed.

Lemma train_if_started_run self name to_log s :
  (started self (epoch s) name → grad_acc_steps (component (_cfg self) name) ≠ 0) →
  ∃ t logs s',
    train_if_started self name to_log s = (t, Returns (logs, s'))
    ∧ epoch s' = epoch s
    ∧ omap train_component_call t =
        if bool_decide (started self (epoch s) name)
        then [(name, budget self (epoch s) name)] else [].
Proof.
  intros Hg. unfold train_if_started, started in *. run.
  destruct (decide (start_after_epochs (component (_cfg self) name) < epoch s)) as [Hs|Hs];
    [rewrite !bool_decide_eq_true_2 by done|rewrite !bool_decide_eq_false_2 by done].
  - destruct (train_component_run self name (budget self (epoch s) name) s (Hg Hs))
      as (logs & s' & Hrun).
    destruct (train_component_obeys self name (budget self (epoch s) name) True s)
      as (_ & He & _).
    unfold outcome in He. rewrite Hrun in He. specialize (He _ _ eq_refl).
    pose proof (iteration_events_no_call self name (Py.range 1000)) as Hno.
    remember (flat_map (iteration_events self name) (Py.range 1000)) as tl eqn:Htl.
    unfold budget in Hrun. erewrite bind_returns by exact Hrun.
    eexists _, _, s'. split; [reflexivity|]. split; [exact He|].
    unfold ret, budget; simpl. rewrite app_nil_r.
    rewrite (bool_decide_eq_true_2 (_ < _)) by exact Hs. f_equal.
    by apply omap_discards.
  - eexists _, _, _. split; [reflexivity|]. by split.
Qed.

Lemma for_each_train_if_started self (l : list ModelName) : ∀ to_log s,
  (∀ name, name ∈ l → started self (epoch s) name →
           grad_acc_steps (component (_cfg self) name) ≠ 0) →
  ∃ t logs s',
    for_each l (train_if_started self) to_log s = (t, Returns (logs, s'))
    ∧ epoch s' = epoch s
    ∧ omap train_component_call t =
        (λ name, (name, budget self (epoch s) name))
          <$> filter (started self (epoch s)) l.
Proof.
  induction l as [|name l IH]; intros to_log s Hg; simpl.
  - by eexists _, _, _.
  - destruct (train_if_started_run self name to_log s) as (t1 & logs1 & s1 & H1 & He1 & Ho1).
    { apply Hg. left. }
    destruct (IH logs1 s1) as (t2 & logs2 & s2 & H2 & He2 & Ho2).
    { rewrite He1. intros name' Hin. apply Hg. by right. }
    erewrite bind_returns by exact H1. rewrite H2. simpl.
    eexists _, _, _. split; [reflexivity|]. split; [congruence|].
    rewrite omap_app, Ho1, Ho2, He1.
    destruct (bool_decide_reflect (started self (epoch s) name)) as [Hs|Hs].
    + by rewrite filter_cons_True.
    + by rewrite filter_cons_False.
Qed.

(** C6, amended: [train_agent] goes through the models it trains — the
    three of them, or [actor_critic] alone when the run is model-free — and
    calls [train_component] for exactly those whose [start_after_epochs] is
    below the current epoch, with [steps_first_epoch] at epoch 1 and
    [steps_per_epoch] at any other epoch. *)
Theorem train_agent_schedule self s :
  (∀ name, name ∈ trained_models self → started self (epoch s) name →
           grad_acc_steps (component (_cfg self) name) ≠ 0) →
  ∃ t logs s',
    train_agent self s = (t, Returns (logs, s'))
    ∧ omap train_component_call t =
        (λ name, (name, budget self (epoch s) name))
          <$> filter (started self (epoch s)) (trained_models self).
Proof.
  intros Hg. unfold train_agent. run.
  destruct (for_each_train_if_started self (trained_models self) []
              (set_world (agent_zero_grad E (agent_train E (world s)))
                 (set_world (agent_train E (world s)) s)) Hg)
    as (t & logs & s' & Hrun & _ & Ho).
  unfold trained_models in Hrun. fold (@_model_names) in Hrun.
  simpl in Hrun |- *. rewrite Hrun. simpl.
  eexists _, _, _. split; [reflexivity|]. exact Ho.
Qed.

End Training.

(** * Evaluation *)

Section Evaluation.
Context {E : Externals}.
Implicit Types (s : @State E) (self : Trainer) (name : ModelName) (ev : @Event E).

Lemma test_component_obeys self name (F : Prop) :
  obeys (λ ev, is_evaluation ev = true ∧ is_marker ev = false) same_epoch F
    (test_component self name).
Proof. unfold test_component. obeys_auto. Qed.

Lemma test_if_started_obeys self name to_log (F : Prop) :
  obeys (λ ev, is_evaluation ev = true ∧ is_marker ev = false) same_epoch F
    (test_if_started self name to_log).
Proof. unfold test_if_started. obeys_auto. apply test_component_obeys. Qed.

(** [test_agent] is entered once, then tests components. *)
Lemma test_agent_inv self s :
  ∃ t, trace (test_agent self) s = TestAgent (epoch s) :: t
       ∧ Forall (λ ev, is_evaluation ev = true ∧ is_marker ev = false) t
       ∧ (∀ logs s', outcome (test_agent self) s = Returns (logs, s') → epoch s' = epoch s)
       ∧ outcome (test_agent self) s ≠ OutOfFuel.
Proof.
  unfold trace, outcome, test_agent. run. pose (F := False).
  match goal with
  | |- context [for_each ?l ?b ?a ?s0] =>
      assert (obeys (λ ev, is_evaluation ev = true ∧ is_marker ev = false) same_epoch F
                (for_each l b a)) as Hf
        by (obeys_auto; apply test_if_started_obeys);
      destruct (Hf s0) as (Ht & He & Hfuel)
  end.
  eexists. split; [reflexivity|]. split; [exact Ht|]. split; [|exact Hfuel].
  intros logs s' Ho. apply He in Ho. exact Ho.
Qed.

Lemma test_agent_obeys self (F : Prop) :
  obeys (λ ev, is_evaluation ev = true) same_epoch F (test_agent self).
Proof.
  intros s. destruct (test_agent_inv self s) as (t & Ht & Hall & He & Hfuel).
  rewrite Ht. split; [|split; [exact He|done]].
  constructor; [done|]. eapply Forall_impl; [exact Hall|]. by intros ev [? _].
Qed.

(** [collect_test] always returns: it clears the test store, asks the
    test collector for the episodes of its budget and, for the final
    collection, adds the statistics of the returns to the log. *)
Lemma collect_test_run self (final : bool) s :
  let c := collection_test (_cfg self) in
  let episodes := if final then num_final_episodes c else num_episodes c in
  let r := test_collector_send E (of_episodes episodes) (world s) (clear E (test_dataset s)) in
  let to_log := shift_episode_ids (num_episodes_test s) r.2 in
  collect_test self final s =
    ([CollectTest final (epoch s); TestDatasetClear; TestCollectorSend (of_episodes episodes)],
     Returns (if final then to_log ++ [final_return_stats (episode_returns to_log)]
              else to_log,
              set_num_episodes_test (num_episodes_test s + episodes)
                (set_test_dataset r.1.2
                   (set_world r.1.1 (set_test_dataset (clear E (test_dataset s)) s))))).
Proof. intros c episodes r to_log. unfold collect_test. run. by destruct final. Qed.

Lemma collect_test_obeys self (final : bool) (F : Prop) :
  obeys (λ ev, is_collection ev = true ∧ (final = false → is_final_collect ev = false))
    same_epoch F (collect_test self final).
Proof.
  intros s. unfold trace, outcome. rewrite collect_test_run. simpl. split; [|split].
  - destruct final; repeat (apply Forall_cons; split; [by split|]); constructor.
  - by intros a s' [= _ <-].
  - discriminate.
Qed.

End Evaluation.

(** * The epoch loop *)

Tactic Notation "bind_inv" hyp(H) "as" ident(t1) ident(a) ident(s1) ident(H1) :=
  apply bind_inv in H as (t1 & a & s1 & ? & H1 & H & ->); cbv beta in H.

Section Epochs.
Context {E : Externals}.
Implicit Types (s : @State E) (self : Trainer) (name : ModelName) (ev : @Event E).

Lemma filter_markers_none (t : list (@Event E)) :
  Forall (λ ev, is_marker ev = false) t → filter (λ ev, is_marker ev = true) t = [].
Proof.
  induction 1 as [|ev t Hev _ IH]; [done|].
  rewrite filter_cons_False; [done|]. by rewrite Hev.
Qed.

Lemma train_agent_no_marker self (F : Prop) :
  obeys (λ ev, is_marker ev = false) same_epoch F (train_agent self).
Proof.
  eapply obeys_weaken; [|apply train_agent_obeys].
  intros ev [Ht _]. by destruct ev.
Qed.

Lemma get_num_epochs_collect_silent (F : Prop) :
  obeys (λ _, False) eq F (get_num_epochs_collect (E := E)).
Proof. unfold get_num_epochs_collect. obeys_auto. Qed.

Lemma should_collect_train_silent self (F : Prop) : obeys (λ _, False) eq F (should_collect_train self).
Proof. unfold should_collect_train. obeys_auto. apply get_num_epochs_collect_silent. Qed.

Lemma should_test_inv self s t b s' :
  should_test self s = (t, Returns (b, s')) →
  t = [] ∧ s' = s ∧ b = bool_decide (evaluation_due self (epoch s)).
Proof.
  unfold should_test, Py.mod_, lift.
  destruct (decide (_rank self = 0)) as [Hr|Hr];
    [rewrite (bool_decide_eq_true_2 _ Hr)|rewrite (bool_decide_eq_false_2 _ Hr)]; simpl.
  - destruct (evaluation_should (_cfg self)) eqn:Hes; simpl.
    + rewrite bind_gets. destruct (decide (evaluation_every (_cfg self) = 0)).
      * by rewrite bind_raise.
      * rewrite bind_ret_l. intros [= <- <- <-]. split; [done|]. split; [done|].
        apply bool_decide_ext. unfold evaluation_due. rewrite Hes. tauto.
    + intros [= <- <- <-]. split; [done|]. split; [done|].
      symmetry. apply bool_decide_eq_false_2. unfold evaluation_due. rewrite Hes.
      by intros (_ & ? & _).
  - intros [= <- <- <-]. split; [done|]. split; [done|].
    symmetry. apply bool_decide_eq_false_2. unfold evaluation_due. by intros (? & _).
Qed.

Lemma maybe_collect_test_inv self (b : bool) to_log s t a s' :
  (if b then bind (collect_test self false) (λ logs, ret (to_log ++ logs)) else ret to_log) s
    = (t, Returns (a, s')) →
  epoch s' = epoch s
  ∧ filter (λ ev, is_marker ev = true) t = if b then [CollectTest false (epoch s)] else [].
Proof.
  destruct b.
  - erewrite bind_returns by apply collect_test_run. by intros [= <- _ <-].
  - by intros [= <- _ <-].
Qed.

Lemma maybe_test_agent_inv self (b : bool) to_log s t a s' :
  (if b then bind (test_agent self) (λ logs, ret (to_log ++ logs)) else ret to_log) s
    = (t, Returns (a, s')) →
  epoch s' = epoch s
  ∧ filter (λ ev, is_marker ev = true) t = if b then [TestAgent (epoch s)] else [].
Proof.
  destruct b; [|by intros [= <- _ <-]].
  intros H. bind_inv H as t1 logs s1 H1. apply ret_inv in H as (-> & _ & ->).
  destruct (test_agent_inv self s) as (t' & Ht & Hall & He & _).
  unfold trace, outcome in Ht, He. rewrite H1 in Ht, He. simpl in Ht, He.
  split; [by eapply He|]. rewrite Ht, app_nil_r, filter_cons_True by done.
  f_equal. apply filter_markers_none. eapply Forall_impl; [exact Hall|]. by intros ev [_ ?].
Qed.

(** A round of the epoch loop that returns has advanced [self.epoch] by
    one and left the markers of that epoch. *)
Lemma epoch_body_markers self n to_log s t s' :
  epoch_body self n to_log s = (t, Returns (tt, s')) →
  epoch s' = epoch s + 1
  ∧ filter (λ ev, is_marker ev = true) t = epoch_markers self n (epoch s + 1).
Proof.
  intros H. unfold epoch_body in H.
  bind_inv H as t1 a1 s1 H1. apply modify_inv in H1 as [-> ->].
  bind_inv H as t2 a2 s2 H1. apply gets_inv in H1 as (-> & -> & ->).
  bind_inv H as t3 a3 s3 H1. apply emit_inv in H1 as [-> ->].
  bind_inv H as t4 a4 s4 H1.
  apply (silent_inv (F := True)) in H1 as [-> ->]; [|apply should_collect_train_silent].
  bind_inv H as t5 a5 s5 H1.
  apply (obeys_inv (λ ev, is_marker ev = false) same_epoch (F := True)) in H1 as [Ht5 He5];
    [|obeys_auto].
  bind_inv H as t6 a6 s6 H1.
  apply (obeys_inv (λ ev, is_marker ev = false) same_epoch (F := True)) in H1 as [Ht6 He6];
    [|unfold sync_train_dataset; obeys_auto].
  bind_inv H as t7 a7 s7 H1.
  apply (obeys_inv (λ ev, is_marker ev = false) same_epoch (F := True)) in H1 as [Ht7 He7];
    [|obeys_auto; apply train_agent_no_marker].
  bind_inv H as t8 a8 s8 H1. apply should_test_inv in H1 as (-> & -> & ->).
  bind_inv H as t9 a9 s9 H1. apply maybe_collect_test_inv in H1 as [He9 Ht9].
  bind_inv H as t10 a10 s10 H1. apply maybe_test_agent_inv in H1 as [He10 Ht10].
  apply (obeys_inv (λ ev, is_marker ev = false) same_epoch (F := True)) in H as [Ht11 He11];
    [|unfold save_checkpoint; obeys_auto].
  unfold same_epoch in *. simpl in *.
  assert (epoch s7 = epoch s + 1) as He by congruence.
  split; [congruence|].
  rewrite filter_cons_True by done.
  rewrite !filter_app, (filter_markers_none _ Ht5), (filter_markers_none _ Ht6),
    (filter_markers_none _ Ht7), (filter_markers_none _ Ht11), Ht9, Ht10, He9, He.
  simpl. rewrite app_nil_r.
  clear Ht9 Ht10. unfold epoch_markers. simpl.
  destruct (decide (evaluation_due self (epoch s + 1))) as [Hd|Hd];
    [rewrite (bool_decide_eq_true_2 _ Hd)|rewrite (bool_decide_eq_false_2 _ Hd)]; simpl.
  - destruct (_is_static_dataset self) eqn:Hst, (_is_model_free self) eqn:Hmf; simpl;
      repeat case_decide; unfold test_collection_due, test_agent_due in *;
      rewrite ?Hst, ?Hmf in *; try done; exfalso; intuition congruence.
  - repeat case_decide; unfold test_collection_due, test_agent_due in *;
      try done; exfalso; tauto.
Qed.

Lemma epochs_between_done (a b : Z) : ¬ a < b → epochs_between a b = [].
Proof. intros H. unfold epochs_between. by replace (Z.to_nat (b - a)) with 0%nat by lia. Qed.

Lemma epochs_between_next (a b : Z) :
  a < b → epochs_between a b = (a + 1) :: epochs_between (a + 1) b.
Proof.
  intros H. unfold epochs_between.
  replace (Z.to_nat (b - a)) with (S (Z.to_nat (b - (a + 1)))) by lia.
  simpl. f_equal. rewrite <- (fmap_S_seq 1), <- list_fmap_compose.
  apply list_fmap_ext. intros _ i _. simpl. lia.
Qed.

Lemma epoch_loop_unfold self fuel n to_log :
  epoch_loop self fuel n to_log =
    bind (gets epoch) (λ ep,
      if bool_decide (ep < n) then
        match fuel with
        | O => out_of_fuel
        | S fuel => bind (epoch_body self n to_log) (λ _, epoch_loop self fuel n [])
        end
      else ret tt).
Proof. by destruct fuel. Qed.

(** A loop that returns has gone through the epochs up to its bound, one
    round each. *)
Lemma epoch_loop_markers self fuel n : ∀ to_log s t s',
  epoch_loop self fuel n to_log s = (t, Returns (tt, s')) →
  epoch s' = Z.max (epoch s) n
  ∧ filter (λ ev, is_marker ev = true) t
    = flat_map (epoch_markers self n) (epochs_between (epoch s) n).
Proof.
  induction fuel as [|fuel IH]; intros to_log s t s' H;
    rewrite epoch_loop_unfold, bind_gets in H;
    (destruct (decide (epoch s < n)) as [Hlt|Hlt];
     [rewrite (bool_decide_eq_true_2 _ Hlt) in H
     |rewrite (bool_decide_eq_false_2 _ Hlt) in H;
      apply ret_inv in H as (-> & _ & ->);
      rewrite epochs_between_done by done; split; [lia|done]]).
  - discriminate.
  - bind_inv H as t1 a1 s1 H1. destruct a1.
    apply epoch_body_markers in H1 as [He1 Hm1].
    apply IH in H as [He Hm].
    rewrite epochs_between_next by done. simpl.
    rewrite filter_app, Hm1, Hm, He, He1. split; [lia|reflexivity].
Qed.

Lemma omap_markers {X} (f : @Event E → option X) (t : list Event) :
  (∀ ev, is_marker ev = false → f ev = None) →
  omap f (filter (λ ev, is_marker ev = true) t) = omap f t.
Proof.
  intros Hf. induction t as [|ev t IH]; [done|].
  change (ev :: t) with ([ev] ++ t) at 2. rewrite omap_app, <- IH.
  destruct (is_marker ev) eqn:Hm.
  - rewrite filter_cons_True by done.
    change (ev :: filter (λ ev, is_marker ev = true) t)
      with ([ev] ++ filter (λ ev, is_marker ev = true) t).
    by rewrite omap_app.
  - rewrite filter_cons_False by (by rewrite Hm). simpl. by rewrite (Hf _ Hm).
Qed.

Lemma started_epoch_markers self n (l : list Z) :
  omap started_epoch (flat_map (epoch_markers self n) l) = l.
Proof.
  induction l as [|e l IH]; [done|]. simpl. rewrite omap_app, IH. f_equal.
  by repeat case_decide.
Qed.

Lemma test_collection_epoch_markers self n (l : list Z) :
  omap test_collection_epoch (flat_map (epoch_markers self n) l)
    = filter (test_collection_due self) l.
Proof.
  induction l as [|e l IH]; [done|]. simpl. rewrite omap_app, IH.
  destruct (decide (test_collection_due self e)) as [Hd|Hd].
  - rewrite filter_cons_True by done. by case_decide.
  - rewrite filter_cons_False by done. by case_decide.
Qed.

Lemma test_agent_epoch_markers self n (l : list Z) :
  omap test_agent_epoch (flat_map (epoch_markers self n) l)
    = filter (test_agent_due self) l.
Proof.
  induction l as [|e l IH]; [done|]. simpl. rewrite omap_app, IH.
  destruct (decide (test_agent_due self e)) as [Hd|Hd].
  - rewrite filter_cons_True by done. by repeat case_decide.
  - rewrite filter_cons_False by done. by repeat case_decide.
Qed.

(** C7, amended: in an epoch loop that returns, test episodes are
    collected exactly at the epochs at which the rank is 0,
    [evaluation.should] is set, the epoch is a multiple of
    [evaluation.every] and the dataset is not static, and [test_agent] is
    run exactly at the epochs at which the rank is 0, [evaluation.should]
    is set, the epoch is a multiple of [evaluation.every] and the agent is
    not model-free. *)
Theorem evaluation_cadence self fuel n to_log s t s' :
  epoch_loop self fuel n to_log s = (t, Returns (tt, s')) →
  omap test_collection_epoch t
    = filter (test_collection_due self) (epochs_between (epoch s) n)
  ∧ omap test_agent_epoch t
    = filter (test_agent_due self) (epochs_between (epoch s) n).
Proof.
  intros H. apply epoch_loop_markers in H as [_ Hm]. split.
  - rewrite <- (omap_markers test_collection_epoch t) by (by intros []).
    rewrite Hm. apply test_collection_epoch_markers.
  - rewrite <- (omap_markers test_agent_epoch t) by (by intros []).
    rewrite Hm. apply test_agent_epoch_markers.
Qed.

End Epochs.

(** * The whole run *)

Ltac obeys_methods :=
  repeat first
    [ progress obeys_auto
    | lazymatch goal with
      | |- obeys _ _ _ (train_agent _) =>
          eapply obeys_relax; [ | | apply train_agent_obeys]
      | |- obeys _ _ _ (test_agent _) =>
          eapply obeys_relax; [ | | apply test_agent_obeys]
      | |- obeys _ _ _ (collect_test _ _) =>
          eapply obeys_relax; [ | | apply collect_test_obeys]
      | |- obeys _ _ _ (should_collect_train _) => unfold should_collect_train
      | |- obeys _ _ _ (should_test _) => unfold should_test
      | |- obeys _ _ _ get_num_epochs_collect => unfold get_num_epochs_collect
      | |- obeys _ _ _ sync_train_dataset => unfold sync_train_dataset
      | |- obeys _ _ _ (save_checkpoint _) => unfold save_checkpoint
      end ].

Section Run.
Context {E : Externals}.
Implicit Types (s : @State E) (self : Trainer) (name : ModelName) (ev : @Event E).

Lemma collect_initial_loop_obeys self fuel : ∀ steps to_log,
  obeys (λ ev, ∃ n, ev = TrainCollectorSend n) same_epoch True
    (collect_initial_loop self fuel steps to_log).
Proof.
  induction fuel as [|fuel IH]; intros steps to_log; simpl; obeys_auto; eauto.
Qed.

Lemma collect_initial_dataset_obeys self fuel :
  obeys (λ ev, ∃ n, ev = TrainCollectorSend n) same_epoch True
    (collect_initial_dataset self fuel).
Proof.
  unfold collect_initial_dataset. obeys_auto. apply collect_initial_loop_obeys.
Qed.

Lemma initial_collection_obeys self fuel :
  obeys (λ ev, ∃ n, ev = TrainCollectorSend n) same_epoch True
    (initial_collection self fuel).
Proof.
  unfold initial_collection. obeys_auto. apply collect_initial_dataset_obeys.
Qed.

(** No round of the epoch loop needs fuel. *)
Lemma epoch_body_total self n to_log :
  obeys (λ _, True) anything False (epoch_body self n to_log).
Proof. unfold epoch_body. obeys_methods; done. Qed.

(** With as many units of fuel as there are epochs to go, the epoch loop
    does not run out of fuel. *)
Lemma epoch_loop_fuel self n : ∀ fuel to_log s,
  (Z.to_nat (n - epoch s) <= fuel)%nat →
  outcome (epoch_loop self fuel n to_log) s ≠ OutOfFuel.
Proof.
  induction fuel as [|fuel IH]; intros to_log s Hfuel; unfold outcome;
    rewrite epoch_loop_unfold, bind_gets;
    (destruct (decide (epoch s < n)) as [Hlt|Hlt];
     [rewrite (bool_decide_eq_true_2 _ Hlt)|by rewrite (bool_decide_eq_false_2 _ Hlt)]).
  - lia.
  - destruct (epoch_body_total self n to_log s) as (_ & _ & Hf). unfold outcome in Hf.
    unfold bind.
    destruct (epoch_body self n to_log s) as [t1 [[[] s1]|e|]] eqn:H1; [|done|tauto].
    apply epoch_body_markers in H1 as [He1 _].
    specialize (IH [] s1). unfold outcome in IH.
    destruct (epoch_loop self fuel n [] s1) as [t2 o]. simpl in *. apply IH. lia.
Qed.

Lemma epoch_loop_obeys P self fuel n :
  (∀ to_log, obeys P anything True (epoch_body self n to_log)) →
  ∀ to_log, obeys P anything True (epoch_loop self fuel n to_log).
Proof.
  intros Hbody. induction fuel as [|fuel IH]; intros to_log;
    rewrite epoch_loop_unfold; obeys_auto; auto.
Qed.

Lemma run_obeys P self fuel :
  obeys P anything True (initial_collection self fuel) →
  (∀ n to_log, obeys P anything True (epoch_body self n to_log)) →
  obeys P anything True (last_collect self) →
  obeys P anything True (run self fuel).
Proof.
  intros Hinit Hbody Hlast. unfold run. obeys_methods; auto.
  by apply epoch_loop_obeys.
Qed.

(** [run] can run out of fuel in its initial collection only. *)
Lemma run_fuel self fuel s :
  outcome (run self fuel) s = OutOfFuel →
  outcome (initial_collection self fuel) s = OutOfFuel.
Proof.
  unfold outcome, run. unfold bind at 1.
  destruct (initial_collection self fuel s) as [t1 [[to_log s1]|e|]]; [|done..].
  intros H. exfalso. revert H.
  unfold get_num_epochs_collect. rewrite bind_assoc, bind_gets.
  destruct (num_epochs_collect s1) as [n|]; [|by rewrite bind_raise].
  rewrite bind_ret_l, bind_gets. unfold bind at 1.
  pose proof (epoch_loop_fuel self 2 (Z.to_nat (2 - epoch s1)) to_log s1 (le_n _)) as Hl.
  unfold outcome in Hl.
  destruct (epoch_loop self _ 2 to_log s1) as [t2 [[[] s2]|e|]]; [|done..].
  assert (obeys (λ _, True) anything False (last_collect self)) as Hlast
    by (unfold last_collect; obeys_methods; done).
  destruct (Hlast s2) as (_ & _ & Hf). unfold outcome in Hf.
  destruct (last_collect self s2) as [t3 o]. simpl in *. tauto.
Qed.

Lemma last_collect_no_start self :
  obeys (λ ev, started_epoch ev = None) same_epoch True (last_collect self).
Proof.
  unfold last_collect. obeys_methods; try done.
  intros ev [Hc _]; by destruct ev.
Qed.

(** C1, as the code stands: whatever [num_epochs_collect +
    training.num_final_epochs] is, a run that returns has started the
    epochs from [self.epoch + 1] to 2 and no other, and leaves
    [self.epoch] at 2 (or where it was, if that was beyond 2). *)
Theorem run_epochs self fuel s t s' :
  run self fuel s = (t, Returns (tt, s')) →
  omap started_epoch t = epochs_between (epoch s) 2 ∧ epoch s' = Z.max (epoch s) 2.
Proof.
  intros H. unfold run in H.
  bind_inv H as t1 to_log s1 H1.
  apply (obeys_inv _ _ _ _ _ _ _ (initial_collection_obeys self fuel)) in H1 as [Ht1 He1].
  bind_inv H as t2 n s2 H1.
  apply (silent_inv (F := True)) in H1 as [-> ->];
    [|apply get_num_epochs_collect_silent].
  bind_inv H as t3 ep s3 H1. apply gets_inv in H1 as (-> & -> & ->).
  bind_inv H as t4 u s4 H1. destruct u.
  apply epoch_loop_markers in H1 as [He4 Hm4].
  apply (obeys_inv _ _ _ _ _ _ _ (last_collect_no_start self)) in H as [Ht5 He5].
  unfold same_epoch in *. split; [|congruence].
  rewrite !omap_app. simpl.
  rewrite (omap_discards _ t1), (omap_discards _ _ Ht5), app_nil_r.
  - rewrite <- (omap_markers started_epoch t4) by (by intros []).
    rewrite Hm4, He1. apply started_epoch_markers.
  - eapply Forall_impl; [exact Ht1|]. by intros ev [n' ->].
Qed.

(** C9: on a rank other than 0, no call of [run] reaches a collector, the
    test store or an evaluation: the trace of [run] holds no collection
    and no evaluation event, however the call ends. *)
Theorem only_rank_zero_interacts self fuel s :
  _rank self ≠ 0 →
  Forall (λ ev, is_collection ev = false ∧ is_evaluation ev = false)
    (trace (run self fuel) s).
Proof.
  intros Hrank.
  assert (bool_decide (_rank self = 0) = false) as Hb by by apply bool_decide_eq_false_2.
  apply run_obeys.
  - unfold initial_collection. rewrite Hb. obeys_methods; done.
  - intros n to_log. unfold epoch_body, should_collect_train, should_test.
    rewrite Hb. cbv beta iota delta [andb]. obeys_methods; try done.
    intros ev [Ht _]. by destruct ev.
  - unfold last_collect. rewrite Hb. cbv beta iota delta [andb when]. obeys_methods.
Qed.

(** C10: on a model-free trainer, [train_component] is entered for
    [actor_critic] only — in every call of [train_agent], and so in every
    epoch of every run, however the call ends. *)
Theorem train_agent_model_free self :
  _is_model_free self = true →
  (∀ s, Forall (λ ev, ∀ name steps, ev = TrainComponent name steps → name = actor_critic)
          (trace (train_agent self) s))
  ∧ (∀ fuel s, Forall (λ ev, ∀ name steps, ev = TrainComponent name steps → name = actor_critic)
                 (trace (run self fuel) s)).
Proof.
  intros Hmf.
  assert (∀ ev, is_training ev = true
                ∧ (_is_model_free self = true →
                   event_model ev = None ∨ event_model ev = Some actor_critic) →
                ∀ name steps, ev = TrainComponent name steps → name = actor_critic)
    as Htrain.
  { intros ev [_ Hm] name steps ->. destruct (Hm Hmf) as [Hn|Hn]; simpl in Hn; congruence. }
  split.
  - intros s. destruct (train_agent_obeys self True s) as [Ht _].
    eapply Forall_impl; [exact Ht|exact Htrain].
  - intros fuel s. revert s. apply run_obeys.
    + eapply obeys_relax; [| |apply initial_collection_obeys]; [|done].
      by intros ev [n ->].
    + intros n to_log. unfold epoch_body. obeys_methods; try done.
      * by intros ev [Hc _] name steps ->.
      * by intros ev He name steps ->.
    + unfold last_collect. obeys_methods; try done.
      by intros ev [Hc _] name steps ->.
Qed.

(** The final collection, on rank 0 with a dataset that is not static. *)
Lemma last_collect_run self s :
  _rank self = 0 → _is_static_dataset self = false →
  let episodes := num_final_episodes (collection_test (_cfg self)) in
  let r := test_collector_send E (of_episodes episodes) (world s) (clear E (test_dataset s)) in
  let logs := shift_episode_ids (num_episodes_test s) r.2 in
  ∃ s',
    last_collect self s =
      ([CollectTest true (epoch s); TestDatasetClear; TestCollectorSend (of_episodes episodes);
        WandbLog (logs ++ [final_return_stats (episode_returns logs)]) (epoch s)]
       ++ (if wandb_run_is_not_none E then [WandbFinish] else []),
       Returns (tt, s'))
    ∧ epoch s' = epoch s.
Proof.
  intros Hrank Hstatic episodes r logs. unfold last_collect.
  rewrite (bool_decide_eq_true_2 _ Hrank), Hstatic. cbn [andb negb when].
  rewrite bind_assoc. erewrite bind_returns by apply collect_test_run.
  cbv beta iota. run. fold episodes r logs.
  destruct (wandb_run_is_not_none E); eexists; (split; [reflexivity|done]).
Qed.

Lemma last_collect_skipped self s :
  bool_decide (_rank self = 0) && negb (_is_static_dataset self) = false →
  Forall (λ ev, is_final_collect ev = false) (trace (last_collect self) s).
Proof.
  intros Hb. unfold trace, last_collect. rewrite Hb. unfold when.
  rewrite bind_ret_l.
  destruct (bool_decide (_rank self = 0) && wandb_run_is_not_none E); simpl;
    repeat constructor.
Qed.

Lemma epoch_loop_no_final self fuel n to_log :
  obeys (λ ev, is_final_collect ev = false) anything True (epoch_loop self fuel n to_log).
Proof.
  apply epoch_loop_obeys. clear to_log. intros to_log.
  unfold epoch_body. obeys_methods; try done.
  - intros ev [Ht _]. by destruct ev.
  - intros ev [_ Hf]. by apply Hf.
  - intros ev Ht. by destruct ev.
Qed.

(** C8, amended: a run that returns on rank 0 with a dataset that is not
    static ends with one final test collection — the test store is
    cleared, the test collector is asked for [num_final_episodes] episodes,
    and the log sent to the telemetry ends with the mean and the standard
    deviation of the returns of the episodes collected — whatever the
    evaluation cadence is, and makes no final collection before; on
    another rank, or with a static dataset, it makes none. *)
Theorem final_test_collection self fuel s t s' :
  run self fuel s = (t, Returns (tt, s')) →
  if bool_decide (_rank self = 0) && negb (_is_static_dataset self) then
    ∃ t0 s0,
      let episodes := num_final_episodes (collection_test (_cfg self)) in
      let r := test_collector_send E (of_episodes episodes) (world s0)
                 (clear E (test_dataset s0)) in
      let logs := shift_episode_ids (num_episodes_test s0) r.2 in
      t = t0
          ++ [CollectTest true (epoch s'); TestDatasetClear;
              TestCollectorSend (of_episodes episodes);
              WandbLog (logs ++ [final_return_stats (episode_returns logs)]) (epoch s')]
          ++ (if wandb_run_is_not_none E then [WandbFinish] else [])
      ∧ Forall (λ ev, is_final_collect ev = false) t0
  else Forall (λ ev, is_final_collect ev = false) t.
Proof.
  intros H. unfold run in H.
  bind_inv H as t1 to_log s1 H1.
  apply (obeys_inv _ _ _ _ _ _ _ (initial_collection_obeys self fuel)) in H1 as [Ht1 _].
  bind_inv H as t2 n s2 H1.
  apply (silent_inv (F := True)) in H1 as [-> ->];
    [|apply get_num_epochs_collect_silent].
  bind_inv H as t3 ep s3 H1. apply gets_inv in H1 as (-> & -> & ->).
  bind_inv H as t4 u s0 H1.
  apply (obeys_inv _ _ _ _ _ _ _ (epoch_loop_no_final self _ _ _)) in H1 as [Ht4 _].
  assert (Forall (λ ev, is_final_collect ev = false) (t1 ++ t4)) as Ht0.
  { apply Forall_app. split; [|done].
    eapply Forall_impl; [exact Ht1|]. by intros ev [n' ->]. }
  simpl. rewrite app_assoc.
  destruct (bool_decide (_rank self = 0) && negb (_is_static_dataset self)) eqn:Hb.
  - apply andb_true_iff in Hb as [Hr Hs]. apply bool_decide_eq_true in Hr.
    apply negb_true_iff in Hs.
    destruct (last_collect_run self s0 Hr Hs) as (s1' & Hrun & He).
    rewrite Hrun in H. injection H as <- <-. rewrite He.
    exists (t1 ++ t4), s0. by split.
  - pose proof (last_collect_skipped self s0 Hb) as Hl. unfold trace in Hl.
    rewrite H in Hl. apply Forall_app. by split.
Qed.

End Run.

(** * Scenarios on the scripted collaborators *)

Module Scenarios.
Import Scripted.

(** Scenario for C3: a first-epoch minimum of 105 steps with 10 steps per
    epoch makes [collect_initial_dataset] raise at once. *)
Lemma collect_initial_dataset_divisibility_witness :
  Py.mod_ 105 10 ≠ inr 0
  ∧ ∃ e, collect_initial_dataset (E := ext) trainer_odd_min 5 (state0 two_collections)
         = ([], Raises e)
         ∧ (10 ≠ 0 → e = Py.AssertionError).
Proof.
  split; [vm_compute; discriminate|].
  apply (collect_initial_dataset_divisibility (E := ext) trainer_odd_min).
  vm_compute; discriminate.
Defined.

(** Scenario B of the specification, for C4: with the histogram
    {0: 100, 1: 5} the minority sum 5 is below the threshold 10 and the
    loop goes on; with {0: 120, 1: 12} it is 12 and the loop is left,
    after a request for 100 steps and one for 10. *)
Lemma collect_initial_loop_stops_exactly_witness :
  ∃ logs,
    collect_initial_loop (E := ext) trainer 5 100 [] (state0 two_collections)
    = (requests trainer 2 100,
       Returns ((num_steps ext
                   (train_dataset
                      (after_increments trainer 2 100 (state0 two_collections))),
                 logs),
                after_increments trainer 2 100 (state0 two_collections))).
Proof.
  apply (proj1 (collect_initial_loop_stops_exactly (E := ext) trainer 5 []
                  (state0 two_collections)) 2%nat).
  - lia.
  - left. vm_compute. discriminate.
  - intros j Hj. assert (j = 1%nat) as -> by lia.
    intros [H|(m & H & _)]; [|discriminate]. vm_compute in H. by apply H.
Defined.

Lemma initial_loop_evaluated :
  collect_initial_loop (E := ext) trainer 5 100 [] (state0 two_collections)
    = (initial_loop_trace, Returns ((132, []), initial_loop_state)).
Proof. match goal with |- _ = ?r => vm_cast_no_check (@eq_refl _ r) end. Qed.

(** Scenario for C5: the loop is left with 132 steps of the 1002
    configured, and 87 epochs of 10 steps remain. *)
Lemma collect_initial_dataset_num_epochs_witness :
  Py.mod_ 100 10 = inr 0
  ∧ collect_initial_dataset (E := ext) trainer 5 (state0 two_collections)
    = (initial_loop_trace, Returns ((87, []), initial_loop_state)).
Proof.
  split; [reflexivity|].
  exact (collect_initial_dataset_num_epochs (E := ext) trainer 5
           (state0 two_collections) _ _ _ _ eq_refl initial_loop_evaluated).
Defined.

(** Scenario C of the specification, for C2: [grad_acc_steps] 4 and 8
    steps.  The loop makes 1000 rounds where the specification has 32. *)
Lemma train_component_overrides_budget_witness :
  grad_acc_steps (component (_cfg trainer) denoiser) = 4
  ∧ ∃ t logs s',
      train_component (E := ext) trainer denoiser 8 (state0 []) = (t, Returns (logs, s'))
      ∧ count is_model_call t = 1000%nat
      ∧ count is_opt_step t = 250%nat
      ∧ count is_opt_zero_grad t = 251%nat
      ∧ count is_lr_sched_step t = (if lr_sched_present ext denoiser then 250 else 0)%nat.
Proof.
  split; [reflexivity|].
  apply (train_component_overrides_budget (E := ext) trainer denoiser (state0 [])).
  reflexivity.
Defined.

(** C6 as it stands fails on a model-free run: at epoch 1 the denoiser's
    [start_after_epochs], 0, has been passed, and it is not trained. *)
Lemma trains_iff_started_fails :
  ¬ trains_iff_started (E := ext) trainer_model_free_training (state_at 1 []).
Proof.
  intros H. destruct (H denoiser) as [_ [steps Hin]].
  { vm_compute. reflexivity. }
  destruct (train_agent_obeys (E := ext) trainer_model_free_training True (state_at 1 []))
    as [Hall _].
  rewrite Forall_forall in Hall. destruct (Hall _ Hin) as [_ Hm].
  destruct (Hm eq_refl) as [Hn|Hn]; discriminate.
Qed.

(** Scenario for C6: at epoch 1 all three models have started, and each
    is trained with its [steps_first_epoch]. *)
Lemma train_agent_schedule_witness :
  ∃ t logs s',
    train_agent (E := ext) trainer (state_at 1 []) = (t, Returns (logs, s'))
    ∧ omap train_component_call t = [(denoiser, 8); (rew_end_model, 8); (actor_critic, 8)].
Proof.
  apply (train_agent_schedule (E := ext) trainer (state_at 1 [])).
  intros name _ _. vm_compute. discriminate.
Defined.

(** Scenario for C10: a model-free trainer at epoch 1. *)
Lemma train_agent_model_free_witness :
  _is_model_free trainer_model_free_training = true
  ∧ Forall (λ ev, ∀ name steps, ev = TrainComponent name steps → name = actor_critic)
      (trace (train_agent (E := ext) trainer_model_free_training) (state_at 1 [])).
Proof.
  split; [reflexivity|].
  apply (proj1 (train_agent_model_free (E := ext) trainer_model_free_training eq_refl)).
Defined.

(** C7 as it stands fails on a model-free run: with [evaluation.every] 1
    every epoch is a multiple of it, and [test_agent] is never run. *)
Lemma tests_iff_multiple_fails :
  ¬ tests_iff_multiple (E := ext) trainer_model_free 2 2 (state0 []).
Proof. vm_compute. discriminate. Qed.

(** In that run the loop returns, and test episodes are collected at
    both epochs. *)
Lemma model_free_loop_collects :
  omap test_collection_epoch
    (trace (epoch_loop (E := ext) trainer_model_free 2 2 []) (state0 [])) = [1; 2]
  ∧ omap test_agent_epoch
      (trace (epoch_loop (E := ext) trainer_model_free 2 2 []) (state0 [])) = []
  ∧ epoch (final_state (epoch_loop (E := ext) trainer_model_free 2 2 [] (state0 []))) = 2.
Proof. repeat split; vm_compute; reflexivity. Qed.

Lemma cadence_evaluated :
  epoch_loop (E := ext) trainer_idle 12 12 [] cadence_start
    = (cadence_trace, Returns (tt, cadence_state)).
Proof. match goal with |- _ = ?r => vm_cast_no_check (@eq_refl _ r) end. Qed.

(** Scenario D of the specification, for C7: [evaluation.every] 5 and a
    loop of 12 epochs; test episodes are collected and [test_agent] is run
    at the epochs 5 and 10 only. *)
Lemma evaluation_cadence_witness :
  omap test_collection_epoch cadence_trace = [5; 10]
  ∧ omap test_agent_epoch cadence_trace = [5; 10].
Proof.
  exact (evaluation_cadence (E := ext) trainer_idle 12 12 [] cadence_start
           cadence_trace cadence_state cadence_evaluated).
Defined.

Lemma model_free_run_evaluated :
  run (E := ext) trainer_model_free 5 (state0 [])
    = (model_free_run_trace, Returns (tt, model_free_run_state)).
Proof. match goal with |- _ = ?r => vm_cast_no_check (@eq_refl _ r) end. Qed.

(** The failing input of C1: a model-free configuration with 5 final
    epochs, started at epoch 0.  The configured budget is 0 + 5 epochs;
    the run starts the epochs 1 and 2 and stops. *)
Lemma run_epochs_witness :
  training_num_final_epochs (_cfg trainer_model_free) = 5
  ∧ omap started_epoch model_free_run_trace = [1; 2]
  ∧ epoch model_free_run_state = 2.
Proof.
  split; [reflexivity|].
  exact (run_epochs (E := ext) trainer_model_free 5 (state0 [])
           model_free_run_trace model_free_run_state model_free_run_evaluated).
Defined.

(** Scenario for C9: rank 1. *)
Lemma only_rank_zero_interacts_witness :
  _rank trainer_rank1 ≠ 0
  ∧ Forall (λ ev, is_collection ev = false ∧ is_evaluation ev = false)
      (trace (run (E := ext) trainer_rank1 5) (state0 two_collections)).
Proof.
  split; [vm_compute; discriminate|].
  apply (only_rank_zero_interacts (E := ext) trainer_rank1). vm_compute; discriminate.
Defined.

(** C8 as it stands fails with a static dataset: [run] makes no final
    collection. *)
Lemma one_final_collection_fails :
  ¬ one_final_collection (E := ext) trainer_static 5 (state0 []).
Proof. vm_compute. discriminate. Qed.

(** That run goes through its two epochs and returns. *)
Lemma static_run_epochs :
  omap started_epoch (trace (run (E := ext) trainer_static 5) (state0 [])) = [1; 2]
  ∧ count is_final_collect (trace (run (E := ext) trainer_static 5) (state0 [])) = 0%nat
  ∧ epoch (final_state (run (E := ext) trainer_static 5 (state0 []))) = 2.
Proof. repeat split; vm_compute; reflexivity. Qed.

Lemma idle_run_evaluated :
  run (E := ext) trainer_idle 5 (state0 two_collections)
    = (idle_run_trace, Returns (tt, idle_run_state)).
Proof. match goal with |- _ = ?r => vm_cast_no_check (@eq_refl _ r) end. Qed.

(** Scenario for C8: rank 0, a dataset that is not static.  The two
    episodes collected have the returns 3 and 5. *)
Lemma final_test_collection_witness :
  ∃ t0 logs,
    idle_run_trace
      = t0 ++ [CollectTest true 2; TestDatasetClear; TestCollectorSend (of_episodes 2);
               WandbLog (logs ++ [final_return_stats (E := ext) [3; 5]]) 2;
               WandbFinish]
    ∧ Forall (λ ev, is_final_collect ev = false) t0.
Proof.
  destruct (final_test_collection (E := ext) trainer_idle 5 (state0 two_collections)
              idle_run_trace idle_run_state idle_run_evaluated)
    as (t0 & s0 & Heq & Hall).
  exists t0. eexists. split; [exact Heq|exact Hall].
Defined.

End Scenarios.

(** * Further properties of the initial collection *)

Section FurtherInitialCollection.
Context {E : Externals}.
Implicit Types (s : @State E) (self : Trainer).

Lemma elem_le_sum (l : list Z) y : Forall (λ c, 0 <= c) l → y ∈ l → y <= Py.sum l.
Proof.
  unfold Py.sum. induction 1 as [|x l Hx Hl IH]; intros Hy; [by apply elem_of_nil in Hy|].
  assert (0 <= foldr Z.add 0 l) as Hsum.
  { clear -Hl. induction Hl; simpl; lia. }
  apply elem_of_cons in Hy as [->|Hy]; simpl; [lia|]. specialize (IH Hy). lia.
Qed.

(** X1: the minority reward [sum(sorted(counts)[:-1])] is 0 for a
    histogram of at most one bucket, and for counts that are not negative
    it lies between 0 and the sum of all buckets. *)
Theorem total_minority_rew_bounds (counts : list Z) :
  ((length counts <= 1)%nat → total_minority_rew counts = 0)
  ∧ (Forall (λ c, 0 <= c) counts →
     0 <= total_minority_rew counts <= Py.sum counts).
Proof.
  rewrite total_minority_rew_spec. split.
  - destruct counts as [|x [|y l]]; simpl; intros Hlen; [done| |lia].
    unfold largest, Py.sum. simpl. lia.
  - intros Hpos. destruct counts as [|x l]; unfold sum_all_but_largest;
      [unfold Py.sum; simpl; lia|].
    destruct (largest_is_max x l) as [Hin Hle].
    pose proof (elem_le_sum _ _ Hpos Hin) as Hsum.
    rewrite Forall_forall in Hpos. specialize (Hpos _ Hin). lia.
Qed.

(** X2: the minority reward does not depend on the order of the
    buckets. *)
Theorem total_minority_rew_Permutation (counts counts' : list Z) :
  counts ≡ₚ counts' → total_minority_rew counts = total_minority_rew counts'.
Proof.
  intros Hperm. rewrite !total_minority_rew_spec.
  destruct counts as [|x l], counts' as [|x' l'].
  - done.
  - by apply Permutation_nil_l in Hperm.
  - by apply Permutation_nil_r in Hperm.
  - unfold sum_all_but_largest. rewrite (sum_Permutation _ _ Hperm). f_equal.
    apply (is_max_unique _ _ (x' :: l')); [|apply largest_is_max].
    destruct (largest_is_max x l) as [Hin Hle]. split.
    + by rewrite <- Hperm.
    + intros y Hy. apply Hle. by rewrite Hperm.
Qed.

(** X3: with a maximum of steps configured, the initial collection is
    left as long as every increment adds at least one step to the dataset:
    as many rounds as there are steps missing to the maximum (and one round
    at least) are enough. *)
Theorem collect_initial_loop_terminates self max_steps : ∀ fuel steps to_log s,
  fe_max (first_epoch (collection_train (_cfg self))) = Some max_steps →
  (∀ k : nat, (k < fuel)%nat →
     num_steps E (train_dataset (after_increments self k steps s)) + 1
       <= num_steps E (train_dataset (after_increments self (S k) steps s))) →
  (1 <= fuel)%nat →
  max_steps - num_steps E (train_dataset s) <= Z.of_nat fuel →
  ∃ t n logs s',
    collect_initial_loop self fuel steps to_log s = (t, Returns ((n, logs), s'))
    ∧ (length t <= fuel)%nat.
Proof.
  intros fuel. induction fuel as [|fuel IH]; intros steps to_log s Hmax Hgrow Hfuel Hleft;
    [lia|].
  destruct (collect_initial_loop_round self fuel steps to_log s) as [logs ->].
  destruct (stops self (collected steps s)) eqn:Hs.
  { eexists _, _, _, _. split; [reflexivity|]. simpl. lia. }
  pose proof (Hgrow 0%nat ltac:(lia)) as H0. simpl in H0.
  assert (1 <= fuel)%nat as Hfuel'.
  { destruct fuel; [|lia]. exfalso.
    assert (stops self (collected steps s) = true) as Hs'; [|congruence].
    apply stops_spec. right. exists max_steps. split; [done|]. lia. }
  destruct (IH (ct_steps_per_epoch (collection_train (_cfg self))) logs
              (collected steps s)) as (t & n & logs' & s' & Hrun & Hlen);
    [done| |done|lia|].
  { intros k Hk. apply (Hgrow (S k)). lia. }
  rewrite Hrun. eexists _, _, _, _. split; [reflexivity|]. simpl. lia.
Qed.

End FurtherInitialCollection.

(** * What a run never does *)

Section TestCollection.
Context {E : Externals}.
Implicit Types (s : @State E) (self : Trainer) (ev : @Event E).

#[global] Instance same_schedule_preorder : PreOrder (@same_schedule E).
Proof.
  split; unfold same_schedule; [intros s|intros s1 s2 s3 [] []]; split; congruence.
Qed.

#[global] Instance same_data_preorder : PreOrder (@same_data E).
Proof.
  split; unfold same_data; [intros s|intros s1 s2 s3 (?&?&?&?&?) (?&?&?&?&?)];
    repeat split; congruence.
Qed.

(** [collect_test] reaches the test collector and the test store only. *)
Lemma collect_test_only_tests self (final : bool) (F : Prop) :
  obeys (λ ev, is_collection ev = true ∧ is_train_collect ev = false
               ∧ (final = false → is_final_collect ev = false)
               ∧ (final = true → test_collection_epoch ev = None))
    same_schedule F (collect_test self final).
Proof.
  intros s. unfold trace, outcome. rewrite collect_test_run. simpl. split; [|split].
  - destruct final; repeat (apply Forall_cons; split; [by split|]); constructor.
  - by intros a s' [= _ <-].
  - discriminate.
Qed.

End TestCollection.

(** A walk through a method that simplifies the guards first. *)
Ltac obeys_walk pre :=
  repeat first
    [ progress pre
    | obeys_step; obeys_side
    | lazymatch goal with
      | |- obeys _ _ _ (train_agent _) =>
          eapply obeys_relax; [ | | apply train_agent_obeys]
      | |- obeys _ _ _ (test_agent _) =>
          eapply obeys_relax; [ | | apply test_agent_obeys]
      | |- obeys _ _ _ (collect_test _ _) =>
          eapply obeys_relax; [ | | apply collect_test_only_tests]
      | |- obeys _ _ _ (should_collect_train _) => unfold should_collect_train
      | |- obeys _ _ _ (should_test _) => unfold should_test
      | |- obeys _ _ _ get_num_epochs_collect => unfold get_num_epochs_collect
      | |- obeys _ _ _ sync_train_dataset => unfold sync_train_dataset
      | |- obeys _ _ _ (save_checkpoint _) => unfold save_checkpoint
      end ].

Lemma if_false_false (b : bool) : (if b then false else false) = false.
Proof. by destruct b. Qed.

Ltac guards_off :=
  cbn [negb];
  rewrite ?andb_false_r, ?orb_true_r, ?andb_false_l, ?orb_true_l, ?if_false_false;
  cbv beta iota delta [when].

Section Never.
Context {E : Externals}.
Implicit Types (s : @State E) (self : Trainer) (name : ModelName) (ev : @Event E).

(** X4: only the initial collection needs fuel: a run that skips it — one
    resumed at an epoch other than 0, a model-free one, one over a static
    dataset, or one on a rank other than 0 — never runs out of fuel,
    whatever fuel it is given. *)
Theorem run_needs_no_fuel self fuel s :
  epoch s ≠ 0 ∨ _is_model_free self = true ∨ _is_static_dataset self = true
  ∨ _rank self ≠ 0 →
  outcome (run self fuel) s ≠ OutOfFuel.
Proof.
  intros Hskip Ho. apply run_fuel in Ho. revert Ho.
  unfold outcome, initial_collection. rewrite bind_gets.
  destruct (decide (epoch s = 0)) as [He|He];
    [rewrite (bool_decide_eq_true_2 _ He)|by rewrite (bool_decide_eq_false_2 _ He)].
  destruct (_is_model_free self) eqn:Hmf; [by run|].
  destruct (_is_static_dataset self) eqn:Hst; [by run|].
  destruct Hskip as [?|[?|[?|Hr]]]; try done.
  rewrite (bool_decide_eq_false_2 _ Hr). simpl. by run.
Qed.

(** X5: on a rank other than 0 a run writes nothing: no telemetry log, no
    checkpoint, no end of the telemetry run, however the call ends. *)
Theorem only_rank_zero_writes self fuel s :
  _rank self ≠ 0 →
  Forall (λ ev, is_output ev = false) (trace (run self fuel) s).
Proof.
  intros Hrank.
  assert (bool_decide (_rank self = 0) = false) as Hb by by apply bool_decide_eq_false_2.
  apply run_obeys.
  - unfold initial_collection. rewrite Hb. obeys_methods; done.
  - intros n to_log. unfold epoch_body, should_collect_train, should_test, save_checkpoint.
    rewrite Hb. cbv beta iota delta [andb when]. obeys_methods; try done.
    intros ev [Ht _]. by destruct ev.
  - unfold last_collect. rewrite Hb. cbv beta iota delta [andb when]. obeys_methods.
Qed.

(** X6: over a static dataset a run never interacts with an environment:
    no call to the train collector or to the test collector, no test store
    cleared, not even for the final collection, however the call ends. *)
Theorem static_dataset_never_collects self fuel s :
  _is_static_dataset self = true →
  Forall (λ ev, is_collection ev = false) (trace (run self fuel) s).
Proof.
  intros Hst. apply run_obeys.
  - unfold initial_collection. rewrite Hst. obeys_walk guards_off.
  - intros n to_log. unfold epoch_body, should_collect_train. rewrite Hst.
    obeys_walk guards_off; try done.
    intros ev [Ht _]. by destruct ev.
    intros ev Ht. by destruct ev.
  - unfold last_collect. rewrite Hst. obeys_walk guards_off.
Qed.

(** X7: a model-free run never asks the train collector for steps and
    never evaluates the agent: no [test_agent], no [test_component], no
    model called on a test batch, however the call ends. *)
Theorem model_free_never_collects_train self fuel s :
  _is_model_free self = true →
  Forall (λ ev, is_train_collect ev = false ∧ is_evaluation ev = false)
    (trace (run self fuel) s).
Proof.
  intros Hmf. apply run_obeys.
  - unfold initial_collection. rewrite Hmf. obeys_walk guards_off.
  - intros n to_log. unfold epoch_body, should_collect_train. rewrite Hmf.
    obeys_walk guards_off; try done.
    + intros ev [Ht _]. by destruct ev.
    + intros ev (Hc & Ht & _). by destruct ev.
  - unfold last_collect. obeys_walk guards_off; try done.
    intros ev (Hc & Ht & _). by destruct ev.
Qed.

(** X8: with [training.should] off a run trains nothing: [train_agent]
    is not entered, no model is called on a training batch and no
    optimiser or schedule moves, however the call ends. *)
Theorem no_training_when_off self fuel s :
  training_should (_cfg self) = false →
  Forall (λ ev, is_training ev = false) (trace (run self fuel) s).
Proof.
  intros Hoff. apply run_obeys.
  - eapply obeys_relax; [| |apply initial_collection_obeys]; [|done].
    by intros ev [n ->].
  - intros n to_log. unfold epoch_body. rewrite Hoff. obeys_methods; try done.
    + intros ev [Ht _]. by destruct ev.
    + intros ev Ht. by destruct ev.
  - unfold last_collect. obeys_methods; try done.
    intros ev [Ht _]. by destruct ev.
Qed.

(** X9: with [evaluation.should] off a run never evaluates the agent and
    collects no test episodes in any epoch; the final collection is the
    only test collection left. *)
Theorem no_evaluation_when_off self fuel s :
  evaluation_should (_cfg self) = false →
  Forall (λ ev, is_evaluation ev = false ∧ test_collection_epoch ev = None)
    (trace (run self fuel) s).
Proof.
  intros Hoff. apply run_obeys.
  - eapply obeys_relax; [| |apply initial_collection_obeys]; [|done].
    by intros ev [n ->].
  - intros n to_log. unfold epoch_body, should_test. rewrite Hoff.
    obeys_walk guards_off; try done.
    all: intros ev [Ht _]; by destruct ev.
  - unfold last_collect. obeys_walk guards_off; try done.
    intros ev (Hc & _ & _ & Hf). split; [by destruct ev|by apply Hf].
Qed.

End Never.

(** * The batch counters *)

Section Counters.
Context {E : Externals}.
Implicit Types (s : @State E) (self : Trainer) (name : ModelName) (ev : @Event E).

Lemma advanced_0 (c : CommonTools.t Z) name : advanced c name 0 = c.
Proof. unfold advanced. destruct c, name; simpl; f_equal; lia. Qed.

Lemma advanced_advanced (c : CommonTools.t Z) name a b :
  advanced (advanced c name a) name b = advanced c name (a + b).
Proof. unfold advanced. destruct c, name; simpl; f_equal; lia. Qed.

Lemma get_advanced (c : CommonTools.t Z) name k :
  CommonTools.get (advanced c name k) name = CommonTools.get c name + k.
Proof. unfold advanced. by destruct c, name. Qed.

Lemma get_advanced_ne (c : CommonTools.t Z) name name' k :
  name' ≠ name → CommonTools.get (advanced c name k) name' = CommonTools.get c name'.
Proof. unfold advanced. by destruct c, name, name'. Qed.

(** A round of the loop of [train_component] counts one batch. *)
Lemma train_iteration_counts self name i to_log s :
  grad_acc_steps (component (_cfg self) name) ≠ 0 →
  ∃ t metrics s',
    train_iteration self name i to_log s = (t, Returns (to_log ++ [metrics], s'))
    ∧ same_data s s'
    ∧ num_batch_train s' = advanced (num_batch_train s) name 1
    ∧ num_batch_test s' = num_batch_test s.
Proof.
  intros Hg. unfold train_iteration, Py.mod_, lift.
  destruct (decide (grad_acc_steps (component (_cfg self) name) = 0)); [done|].
  destruct (CommonTools.get _data_loader_train name); run.
  all: match goal with
       | |- context [model_call _ _ ?b ?w] =>
           destruct (model_call E name b w) as [w1 [loss metrics]]
       end; cbn [fst snd]; run.
  all: destruct (bool_decide _); run;
         [|unfold ret; simpl; eexists _, _, _; split; [reflexivity|by repeat split]].
  all: destruct (max_grad_norm _); run.
  all: destruct (lr_sched_present E name); run.
  all: unfold ret; simpl; eexists _, _, _; split; [reflexivity|by repeat split].
Qed.

Lemma for_each_train_iteration_counts self name (l : list Z) : ∀ to_log s,
  grad_acc_steps (component (_cfg self) name) ≠ 0 →
  ∃ t logs s',
    for_each l (train_iteration self name) to_log s = (t, Returns (logs, s'))
    ∧ same_data s s'
    ∧ num_batch_train s' = advanced (num_batch_train s) name (Z.of_nat (length l))
    ∧ num_batch_test s' = num_batch_test s.
Proof.
  induction l as [|i l IH]; intros to_log s Hg.
  - eexists _, _, _. split; [reflexivity|]. split; [reflexivity|].
    by rewrite advanced_0.
  - destruct (train_iteration_counts self name i to_log s Hg)
      as (t1 & m & s1 & Hi & Hd1 & Hn1 & Ht1).
    destruct (IH (to_log ++ [m]) s1 Hg) as (t2 & logs & s' & Hl & Hd2 & Hn2 & Ht2).
    exists (t1 ++ t2), logs, s'. cbn [for_each].
    erewrite bind_returns by exact Hi. rewrite Hl. split; [done|].
    split; [by etrans|]. split; [|congruence].
    rewrite Hn2, Hn1, advanced_advanced. f_equal. cbn [length]. lia.
Qed.

Lemma train_component_counted self name steps s :
  grad_acc_steps (component (_cfg self) name) ≠ 0 →
  ∃ t logs s',
    train_component self name steps s = (t, Returns (logs, s'))
    ∧ same_data s s'
    ∧ num_batch_train s' = advanced (num_batch_train s) name 1000
    ∧ num_batch_test s' = num_batch_test s.
Proof.
  intros Hg. unfold train_component. run.
  match goal with
  | |- context [bind (for_each ?l ?b ?a) _ ?s0] =>
      destruct (for_each_train_iteration_counts self name l a s0 Hg)
        as (t & logs & s' & Hl & Hd & Hn & Ht)
  end.
  erewrite bind_returns by exact Hl. unfold ret. cbn [fst snd].
  eexists _, _, s'. split; [reflexivity|]. split; [exact Hd|]. split; [|exact Ht].
  rewrite Hn. reflexivity.
Qed.

(** X10: with a non-zero [grad_acc_steps], [train_component] returns and
    has counted 1000 batches for the model it trains, whatever [steps] is:
    [num_batch_train] of that model is 1000 higher, the counters of the
    other models, the test counters, the epoch, the datasets and the count
    of test episodes are as they were. *)
Theorem train_component_counts self name steps s :
  grad_acc_steps (component (_cfg self) name) ≠ 0 →
  ∃ t logs s',
    train_component self name steps s = (t, Returns (logs, s'))
    ∧ same_data s s'
    ∧ num_batch_train s' = advanced (num_batch_train s) name 1000
    ∧ num_batch_test s' = num_batch_test s.
Proof. apply train_component_counted. Qed.

(** X11: with [grad_acc_steps = 0], [train_component] raises
    [ZeroDivisionError] in the first round of its loop: the model has been
    called once and the optimiser has not stepped. *)
Theorem train_component_zero_grad_acc self name steps s :
  grad_acc_steps (component (_cfg self) name) = 0 →
  train_component self name steps s
    = ([TrainComponent name steps; OptZeroGrad name; ModelCall name],
       Raises Py.ZeroDivisionError).
Proof.
  intros Hg. unfold train_component.
  assert (∃ l, Py.range 1000 = 0 :: l) as [l ->] by (eexists; vm_compute; reflexivity).
  cbn [for_each]. unfold train_iteration, Py.mod_, lift. rewrite Hg.
  destruct (decide (0 = 0)); [|done].
  destruct (CommonTools.get _data_loader_train name); run.
  all: match goal with
       | |- context [model_call _ _ ?b ?w] =>
           destruct (model_call E name b w) as [w1 [loss metrics]]
       end; cbn [fst snd]; run; reflexivity.
Qed.

(** The loop of [test_component] over the batches [l]. *)
Lemma test_batches_run name (l : list (Batch E)) : ∀ to_log s,
  ∃ logs s',
    for_each l
      (λ batch to_log,
         bind (call_world [ModelEval name] (model_call E name (Some batch))) (λ r,
         bind (gets (λ s, CommonTools.get (num_batch_test s) name)) (λ num_batch,
         bind (modify (λ s, set_num_batch_test
                              (CommonTools.set (num_batch_test s) name (num_batch + 1)) s))
           (λ _,
         ret (to_log
              ++ [<[String.append "num_batch_test_" (name_str name)
                    := value_of_int E num_batch]> (snd r)])))))
      to_log s
    = (replicate (length l) (ModelEval name), Returns (logs, s'))
    ∧ same_data s s'
    ∧ num_batch_test s' = advanced (num_batch_test s) name (Z.of_nat (length l))
    ∧ num_batch_train s' = num_batch_train s.
Proof.
  induction l as [|b l IH]; intros to_log s.
  - eexists _, _. split; [reflexivity|]. split; [reflexivity|].
    by rewrite advanced_0.
  - cbn [for_each]. run.
    match goal with
    | |- context [for_each l ?body ?a ?s0] =>
        destruct (IH a s0) as (logs & s' & Hl & Hd & Hn & Ht)
    end.
    rewrite Hl. cbn [fst snd]. exists logs, s'. split; [reflexivity|].
    split; [exact Hd|]. split; [|exact Ht].
    rewrite Hn. cbn [num_batch_test set_num_batch_test set_world].
    change (CommonTools.set ?c name (CommonTools.get ?c name + 1)) with (advanced c name 1).
    rewrite advanced_advanced. f_equal. cbn [length]. lia.
Qed.

Lemma test_component_counted self name s :
  name ≠ actor_critic →
  ∃ logs s',
    test_component self name s
      = (test_component_events name (test_dataset s), Returns (logs, s'))
    ∧ same_data s s'
    ∧ num_batch_test s' = advanced (num_batch_test s) name
                            (num_test_batches name (test_dataset s))
    ∧ num_batch_train s' = num_batch_train s.
Proof.
  intros Hname. unfold test_component.
  assert (CommonTools.get _data_loader_test name = true) as -> by by destruct name.
  run.
  match goal with
  | |- context [bind (for_each ?l ?body ?a) _ ?s0] =>
      destruct (test_batches_run name l a s0) as (logs & s' & Hl & Hd & Hn & Ht)
  end.
  erewrite bind_returns by exact Hl. unfold ret. cbn [fst snd].
  rewrite app_nil_r. eexists _, s'. split; [reflexivity|].
  split; [exact Hd|]. split; [exact Hn|exact Ht].
Qed.

(** X12: for a model that has a test loader, [test_component] returns
    after one model call per batch of the test dataset, and has counted
    these batches in [num_batch_test] of that model; nothing else of the
    trainer's own state changes. *)
Theorem test_component_counts self name s :
  name ≠ actor_critic →
  ∃ logs s',
    test_component self name s
      = (test_component_events name (test_dataset s), Returns (logs, s'))
    ∧ same_data s s'
    ∧ num_batch_test s' = advanced (num_batch_test s) name
                            (num_test_batches name (test_dataset s))
    ∧ num_batch_train s' = num_batch_train s.
Proof. apply test_component_counted. Qed.

End Counters.

(** * Further properties of the evaluation *)

Section FurtherEvaluation.
Context {E : Externals}.
Implicit Types (s : @State E) (self : Trainer) (name : ModelName) (ev : @Event E).

Lemma shifted_lookup (n : Z) (x : gmap string (Value E)) (k : string) :
  map_imap (λ k v, Some (if decide (k = key_ep_id) then value_add_int E v n else v)) x !! k
    = (λ v, if decide (k = key_ep_id) then value_add_int E v n else v) <$> x !! k.
Proof. rewrite map_lookup_imap. by destruct (x !! k). Qed.

Lemma shifted_dom (n : Z) (x : gmap string (Value E)) :
  dom (map_imap (λ k v, Some (if decide (k = key_ep_id) then value_add_int E v n else v)) x)
    = dom x.
Proof.
  apply dom_imap_L. intros k. rewrite elem_of_dom. split.
  - intros [v Hv]. exists v. split; [done|]. by eexists.
  - intros (v & Hv & _). by exists v.
Qed.

Lemma omap_cons_eq {A B} (f : A → option B) (x : A) (l : list A) :
  omap f (x :: l) = match f x with Some y => y :: omap f l | None => omap f l end.
Proof. reflexivity. Qed.


(** X14: the returns [collect_test] takes from the log do not depend on
    the count of test episodes collected before: shifting the episode ids
    leaves the episode records and their returns as they are, and so the
    mean and the standard deviation reported after the final collection. *)
Theorem episode_returns_shifted (n : Z) (to_log : list (gmap string (Value E))) :
  episode_returns (shift_episode_ids n to_log) = episode_returns to_log
  ∧ final_return_stats (episode_returns (shift_episode_ids n to_log))
    = final_return_stats (episode_returns to_log).
Proof.
  assert (episode_returns (shift_episode_ids n to_log) = episode_returns to_log) as Hr;
    [|by rewrite Hr].
  unfold episode_returns, shift_episode_ids. cbv zeta.
  induction to_log as [|x l IH]; [done|]. rewrite fmap_cons.
  destruct (decide (dom x = (list_to_set [key_ep_id; "return"; "length"] : gset string)))
    as [Hd|Hd].
  - rewrite !filter_cons_True by (by rewrite ?shifted_dom).
    rewrite !omap_cons_eq, IH, shifted_lookup. destruct (x !! "return"); [|done]. simpl.
    by destruct (decide ("return" = key_ep_id)).
  - rewrite !filter_cons_False by (by rewrite ?shifted_dom). exact IH.
Qed.

(** X15: [collect_test] always returns, and works on a cleared test
    store: the test dataset it leaves is the one the test collector makes
    of the cleared store when asked for the episodes of the budget
    ([num_final_episodes] for the final collection, [num_episodes]
    otherwise); the count of test episodes has advanced by that budget; the
    log has one record more than the collector gave if the collection is
    final; the epoch, the train dataset and the batch counters are as they
    were. *)
Theorem collect_test_effect self (final : bool) s :
  let c := collection_test (_cfg self) in
  let episodes := if final then num_final_episodes c else num_episodes c in
  let r := test_collector_send E (of_episodes episodes) (world s) (clear E (test_dataset s)) in
  ∃ logs s',
    collect_test self final s
      = ([CollectTest final (epoch s); TestDatasetClear; TestCollectorSend (of_episodes episodes)],
         Returns (logs, s'))
    ∧ length logs = (length r.2 + if final then 1 else 0)%nat
    ∧ test_dataset s' = r.1.2
    ∧ num_episodes_test s' = num_episodes_test s + episodes
    ∧ epoch s' = epoch s ∧ num_epochs_collect s' = num_epochs_collect s
    ∧ train_dataset s' = train_dataset s
    ∧ num_batch_train s' = num_batch_train s ∧ num_batch_test s' = num_batch_test s.
Proof.
  intros c episodes r. eexists _, _. split; [apply collect_test_run|].
  fold c episodes r. split; [|by repeat split].
  destruct final; rewrite ?length_app; unfold shift_episode_ids;
    rewrite length_fmap; simpl; lia.
Qed.

Lemma test_if_started_run self name to_log s :
  name ≠ actor_critic →
  ∃ logs s',
    test_if_started self name to_log s
      = ((if bool_decide (started self (epoch s) name)
          then test_component_events name (test_dataset s) else []),
         Returns (logs, s'))
    ∧ same_data s s'
    ∧ num_batch_test s'
      = (if bool_decide (started self (epoch s) name)
         then advanced (num_batch_test s) name (num_test_batches name (test_dataset s))
         else num_batch_test s)
    ∧ num_batch_train s' = num_batch_train s.
Proof.
  intros Hname. unfold test_if_started, started. run.
  destruct (bool_decide (start_after_epochs (component (_cfg self) name) < epoch s)).
  - destruct (test_component_counted self name s Hname) as (logs & s' & Hrun & Hd & Hn & Ht).
    erewrite bind_returns by exact Hrun. unfold ret. cbn [fst snd]. rewrite app_nil_r.
    by eexists _, s'.
  - by eexists _, _.
Qed.

Lemma for_each_test_if_started self (l : list ModelName) : ∀ to_log s,
  Forall (λ name, name ≠ actor_critic) l →
  ∃ logs s',
    for_each l (test_if_started self) to_log s
      = (flat_map (λ name, test_component_events name (test_dataset s))
           (filter (started self (epoch s)) l),
         Returns (logs, s'))
    ∧ same_data s s'
    ∧ num_batch_test s'
      = foldl (λ c name, advanced c name (num_test_batches name (test_dataset s)))
          (num_batch_test s) (filter (started self (epoch s)) l)
    ∧ num_batch_train s' = num_batch_train s.
Proof.
  induction l as [|name l IH]; intros to_log s Hl.
  - by eexists _, _.
  - apply Forall_cons in Hl as [Hname Hl].
    destruct (test_if_started_run self name to_log s Hname)
      as (logs1 & s1 & H1 & Hd1 & Hn1 & Ht1).
    destruct (IH logs1 s1 Hl) as (logs2 & s2 & H2 & Hd2 & Hn2 & Ht2).
    pose proof Hd1 as (He & _ & _ & _ & Htd). rewrite He, Htd in H2, Hn2.
    cbn [for_each]. erewrite bind_returns by exact H1. rewrite H2. cbn [fst snd].
    exists logs2, s2. split; [|split; [by etrans|split; [|congruence]]].
    + destruct (decide (started self (epoch s) name)) as [Hs|Hs].
      * by rewrite bool_decide_eq_true_2, filter_cons_True by done.
      * by rewrite bool_decide_eq_false_2, filter_cons_False by done.
    + rewrite Hn2, Hn1. destruct (decide (started self (epoch s) name)) as [Hs|Hs].
      * by rewrite bool_decide_eq_true_2, filter_cons_True by done.
      * by rewrite bool_decide_eq_false_2, filter_cons_False by done.
Qed.

(** X16: [test_agent] always returns; it tests the denoiser and the
    reward-end model, in this order, each if its [start_after_epochs] has
    been passed — never [actor_critic], and nothing at all on a model-free
    trainer —, with one model call per batch of the test dataset, and
    counts these batches in [num_batch_test]; the epoch, the datasets, the
    count of test episodes and the train counters are as they were. *)
Theorem test_agent_run self s :
  let models := filter (started self (epoch s)) (tested_models self) in
  ∃ logs s',
    test_agent self s
      = (TestAgent (epoch s)
           :: flat_map (λ name, test_component_events name (test_dataset s)) models,
         Returns (logs, s'))
    ∧ same_data s s'
    ∧ num_batch_test s'
      = foldl (λ c name, advanced c name (num_test_batches name (test_dataset s)))
          (num_batch_test s) models
    ∧ num_batch_train s' = num_batch_train s.
Proof.
  intros models. unfold test_agent. run.
  match goal with
  | |- context [for_each ?l _ ?a ?s0] =>
      destruct (for_each_test_if_started self l a s0) as (logs & s' & Hl & Hd & Hn & Ht)
  end.
  { destruct (_is_model_free self); [constructor|]. by repeat constructor. }
  rewrite Hl. cbn [fst snd].
  assert ((if _is_model_free self then [] else Py.but_last _model_names)
          = tested_models self) as -> by reflexivity.
  exists logs, s'. split; [reflexivity|]. split; [exact Hd|]. split; [exact Hn|exact Ht].
Qed.

End FurtherEvaluation.

(** * The course of an epoch *)

Ltac sched_side :=
  lazymatch goal with
  | |- obeys _ _ _ _ => idtac
  | |- _ => try (solve [ repeat constructor; simpl; auto
                       | unfold same_schedule; simpl; auto ])
  end.

Ltac sched_auto := repeat (obeys_step; sched_side).

Section Course.
Context {E : Externals}.
Implicit Types (s : @State E) (self : Trainer) (name : ModelName) (ev : @Event E).

Lemma train_agent_quiet self (F : Prop) :
  obeys (λ ev, step_of ev = None) same_schedule F (train_agent self).
Proof.
  unfold train_agent. sched_auto. unfold train_if_started. sched_auto.
  unfold train_component. sched_auto. unfold train_iteration. sched_auto.
Qed.

Lemma test_agent_quiet self (F : Prop) :
  obeys (λ ev, step_of ev = None) same_schedule F (test_agent self).
Proof.
  unfold test_agent. sched_auto. unfold test_if_started. sched_auto.
  unfold test_component. sched_auto.
Qed.

Lemma collect_test_quiet self (final : bool) (F : Prop) :
  obeys (λ ev, step_of ev = None) same_schedule F (collect_test self final).
Proof.
  eapply obeys_weaken; [|apply collect_test_only_tests].
  intros ev (Hc & Ht & _). by destruct ev.
Qed.

Lemma should_collect_train_inv self s t b s' :
  should_collect_train self s = (t, Returns (b, s')) →
  t = [] ∧ s' = s
  ∧ b = bool_decide (collection_due self (num_epochs_collect s) (epoch s)).
Proof.
  unfold should_collect_train, get_num_epochs_collect.
  destruct (decide (_rank self = 0)) as [Hr|Hr];
    [rewrite (bool_decide_eq_true_2 _ Hr)|rewrite (bool_decide_eq_false_2 _ Hr)];
    cbn [andb].
  - destruct (_is_model_free self) eqn:Hmf; cbn [andb negb].
    + intros [= <- <- <-]. split; [done|]. split; [done|]. symmetry.
      apply bool_decide_eq_false_2. unfold collection_due.
      destruct (num_epochs_collect s); [|tauto]. rewrite Hmf. by intros (_ & ? & _).
    + destruct (_is_static_dataset self) eqn:Hst; cbn [negb].
      * intros [= <- <- <-]. split; [done|]. split; [done|]. symmetry.
        apply bool_decide_eq_false_2. unfold collection_due.
        destruct (num_epochs_collect s); [|tauto]. rewrite Hst. by intros (_ & _ & ? & _).
      * rewrite bind_gets, bind_assoc, bind_gets. unfold collection_due.
        destruct (num_epochs_collect s) as [k|]; [|by rewrite bind_raise].
        rewrite bind_ret_l. intros [= <- <- <-]. split; [done|]. split; [done|].
        apply bool_decide_ext. rewrite Hmf, Hst. tauto.
  - intros [= <- <- <-]. split; [done|]. split; [done|]. symmetry.
    apply bool_decide_eq_false_2. unfold collection_due.
    destruct (num_epochs_collect s); [|tauto]. by intros (? & _).
Qed.

(** A round of the epoch loop that returns has gone through the steps of
    its epoch. *)
Lemma epoch_body_steps self n to_log s t s' :
  epoch_body self n to_log s = (t, Returns (tt, s')) →
  epoch s' = epoch s + 1 ∧ num_epochs_collect s' = num_epochs_collect s
  ∧ omap step_of t = epoch_steps self (num_epochs_collect s) n (epoch s + 1).
Proof.
  intros H. unfold epoch_body in H.
  bind_inv H as t1 a1 s1 H1. apply modify_inv in H1 as [-> ->].
  bind_inv H as t2 a2 s2 H1. apply gets_inv in H1 as (-> & -> & ->).
  bind_inv H as t3 a3 s3 H1. apply emit_inv in H1 as [-> ->].
  bind_inv H as t4 a4 s4 H1. apply should_collect_train_inv in H1 as (-> & -> & ->).
  bind_inv H as t5 a5 s5 H1.
  assert (same_schedule (set_epoch (epoch s + 1) s) s5
          ∧ omap step_of t5
            = if bool_decide (collection_due self (num_epochs_collect s) (epoch s + 1))
              then [SCollect (of_steps (ct_steps_per_epoch (collection_train (_cfg self))))]
              else []) as [Hs5 Ht5].
  { cbn [epoch num_epochs_collect set_epoch] in H1.
    destruct (bool_decide (collection_due self (num_epochs_collect s) (epoch s + 1))).
    - revert H1. rewrite bind_train_collector_send. cbv zeta. cbn [fst snd].
      intros [= <- _ <-]. by split.
    - apply ret_inv in H1 as (-> & _ & ->). by split. }
  clear H1. bind_inv H as t6 a6 s6 H1.
  apply (obeys_inv (λ ev, step_of ev = None) same_schedule (F := True)) in H1 as [Ht6 Hs6];
    [|unfold sync_train_dataset; sched_auto].
  bind_inv H as t7 a7 s7 H1.
  apply (obeys_inv (λ ev, step_of ev = None) same_schedule (F := True)) in H1 as [Ht7 Hs7];
    [|sched_auto; apply train_agent_quiet].
  bind_inv H as t8 a8 s8 H1. apply should_test_inv in H1 as (-> & -> & ->).
  bind_inv H as t9 a9 s9 H1.
  apply (obeys_inv (λ ev, step_of ev = None) same_schedule (F := True)) in H1 as [Ht9 Hs9];
    [|sched_auto; apply collect_test_quiet].
  bind_inv H as t10 a10 s10 H1.
  apply (obeys_inv (λ ev, step_of ev = None) same_schedule (F := True)) in H1 as [Ht10 Hs10];
    [|sched_auto; apply test_agent_quiet].
  assert (same_schedule (set_epoch (epoch s + 1) s) s10) as [He Hn].
  { etrans; [exact Hs5|]. etrans; [exact Hs6|]. etrans; [exact Hs7|].
    etrans; [exact Hs9|exact Hs10]. }
  cbn [epoch num_epochs_collect set_epoch] in He, Hn.
  revert H. unfold save_checkpoint, when. rewrite bind_gets.
  destruct (decide (_rank self = 0)) as [Hr|Hr];
    [rewrite (bool_decide_eq_true_2 _ Hr)|rewrite (bool_decide_eq_false_2 _ Hr)];
    destruct (dist_is_initialized E) eqn:Hdist; run; intros [= <- <-].
  all: split; [exact He|]; split; [exact Hn|].
  all: rewrite !omap_app, Ht5, (omap_discards _ _ Ht6), (omap_discards _ _ Ht7),
         (omap_discards _ _ Ht9), (omap_discards _ _ Ht10), ?He.
  all: unfold epoch_steps; rewrite Hdist;
         first [rewrite (decide_True _ _ Hr)|rewrite (decide_False _ _ Hr)].
  all: cbn [omap list_omap step_of app].
  all: destruct (decide (collection_due self (num_epochs_collect s) (epoch s + 1)))
         as [Hd|Hd];
         [rewrite (bool_decide_eq_true_2 _ Hd)|rewrite (bool_decide_eq_false_2 _ Hd)];
         reflexivity.
Qed.

(** X17: the course of an epoch loop that returns.  For every epoch from
    [self.epoch + 1] to the bound, in order and once each: the epoch is
    started; steps are asked of the train collector if the rank is 0, the
    agent is not model-free, the dataset is not static and the epoch is
    within the [num_epochs_collect] collection epochs; on rank 0 the log of
    the epoch is sent to the telemetry and then the checkpoint of the epoch
    is saved; the barrier is passed if the process group is initialised.
    No other start, request to the train collector, log or checkpoint is
    made, and [num_epochs_collect] is as it was. *)
Theorem epoch_loop_steps self fuel n : ∀ to_log s t s',
  epoch_loop self fuel n to_log s = (t, Returns (tt, s')) →
  omap step_of t
    = flat_map (epoch_steps self (num_epochs_collect s) n) (epochs_between (epoch s) n)
  ∧ num_epochs_collect s' = num_epochs_collect s.
Proof.
  induction fuel as [|fuel IH]; intros to_log s t s' H;
    rewrite epoch_loop_unfold, bind_gets in H;
    (destruct (decide (epoch s < n)) as [Hlt|Hlt];
     [rewrite (bool_decide_eq_true_2 _ Hlt) in H
     |rewrite (bool_decide_eq_false_2 _ Hlt) in H;
      apply ret_inv in H as (-> & _ & ->);
      rewrite epochs_between_done by done; by split]).
  - discriminate.
  - bind_inv H as t1 a1 s1 H1. destruct a1.
    apply epoch_body_steps in H1 as (He1 & Hn1 & Hm1).
    apply IH in H as [Hm Hn].
    rewrite epochs_between_next by done. cbn [flat_map].
    rewrite omap_app, Hm1, Hm, He1, Hn1. split; [reflexivity|congruence].
Qed.

(** ** An evaluation period of zero *)

Lemma obeys_bind_stuck_l {A B} (P : @Event E → Prop) (R : relation (@State E)) (F : Prop)
    (m : M A) (k : A → M B) :
  obeys P (λ _ _, False) F m → obeys P R F (bind m k).
Proof.
  intros Hm s. destruct (Hm s) as (Ht & Hs & Hf). unfold trace, outcome, bind in *.
  destruct (m s) as [t1 [[a s1]|e|]]; simpl in *.
  - destruct (Hs _ _ eq_refl).
  - split; [done|]. split; [discriminate|discriminate].
  - split; [done|]. split; [discriminate|]. intros _. by apply Hf.
Qed.

Lemma obeys_bind_stuck_r {A B} (P : @Event E → Prop) (R : relation (@State E)) (F : Prop)
    (m : M A) (k : A → M B) :
  obeys P R F m → (∀ a, obeys P (λ _ _, False) F (k a)) →
  obeys P (λ _ _, False) F (bind m k).
Proof.
  intros Hm Hk s. destruct (Hm s) as (Ht & _ & Hf). unfold trace, outcome, bind in *.
  destruct (m s) as [t1 [[a s1]|e|]]; simpl in *.
  - destruct (Hk a s1) as (Ht' & Hs' & Hf'). unfold trace, outcome in *.
    destruct (k a s1) as [t2 o]; simpl in *. split; [by apply Forall_app|]. by split.
  - split; [done|]. split; [discriminate|discriminate].
  - split; [done|]. split; [discriminate|]. intros _. by apply Hf.
Qed.

Lemma should_test_every_zero self (P : @Event E → Prop) :
  _rank self = 0 → evaluation_should (_cfg self) = true →
  evaluation_every (_cfg self) = 0 →
  obeys P (λ _ _, False) True (should_test self).
Proof.
  intros Hr Hs H0 s. unfold trace, outcome, should_test, Py.mod_, lift.
  rewrite (bool_decide_eq_true_2 _ Hr), Hs, H0. cbn [andb].
  rewrite bind_gets. destruct (decide (0 = 0)); [|done].
  rewrite bind_raise. simpl. split; [constructor|]. split; discriminate.
Qed.

Lemma epoch_body_every_zero self n to_log :
  _rank self = 0 → evaluation_should (_cfg self) = true →
  evaluation_every (_cfg self) = 0 →
  obeys (λ ev, is_output ev = false) (λ _ _, False) True (epoch_body self n to_log).
Proof.
  intros Hr Hs H0. unfold epoch_body.
  do 7 (eapply (obeys_bind_stuck_r _ anything); [obeys_methods; try done|intros ?]).
  - intros ev [Ht _]. by destruct ev.
  - apply obeys_bind_stuck_l. by apply should_test_every_zero.
Qed.

Lemma epoch_loop_every_zero self fuel n to_log s :
  _rank self = 0 → evaluation_should (_cfg self) = true →
  evaluation_every (_cfg self) = 0 → epoch s < n →
  Forall (λ ev, is_output ev = false) (trace (epoch_loop self fuel n to_log) s)
  ∧ ∀ a s', outcome (epoch_loop self fuel n to_log) s ≠ Returns (a, s').
Proof.
  intros Hr Hs H0 Hlt. unfold trace, outcome. rewrite epoch_loop_unfold, bind_gets.
  rewrite (bool_decide_eq_true_2 _ Hlt). destruct fuel as [|fuel].
  - split; [constructor|discriminate].
  - destruct (obeys_bind_stuck_l _ (λ _ _, False) _ _ (λ _, epoch_loop self fuel n [])
                (epoch_body_every_zero self n to_log Hr Hs H0) s) as (Ht & Ho & _).
    split; [exact Ht|]. intros a s' Hret. by apply Ho in Hret.
Qed.

(** X18: with [evaluation.should] set and [evaluation.every = 0], a run
    on rank 0 that has an epoch to go never returns — the test for the
    evaluation, [self.epoch % 0], raises in the first epoch — and it writes
    nothing before: no log of an epoch, no checkpoint, no end of the
    telemetry run. *)
Theorem run_every_zero self fuel s :
  _rank self = 0 → evaluation_should (_cfg self) = true →
  evaluation_every (_cfg self) = 0 → epoch s < 2 →
  (∀ s', outcome (run self fuel) s ≠ Returns (tt, s'))
  ∧ Forall (λ ev, is_output ev = false) (trace (run self fuel) s).
Proof.
  intros Hr Hs H0 Hlt.
  assert (∃ t o, run self fuel s = (t, o)
                 ∧ (∀ s', o ≠ Returns (tt, s'))
                 ∧ Forall (λ ev, is_output ev = false) t) as (t & o & Hrun & Ho & Ht).
  { unfold run.
    destruct (initial_collection_obeys self fuel s) as (Ht1 & He1 & _).
    unfold trace, outcome in Ht1, He1.
    assert (Forall (λ ev, is_output ev = false) (initial_collection self fuel s).1) as Ht1'.
    { eapply Forall_impl; [exact Ht1|]. by intros ev [k ->]. }
    destruct (initial_collection self fuel s) as [t1 [[to_log s1]|e|]] eqn:Hi;
      [|unfold bind; rewrite Hi; eexists _, _; (split; [reflexivity|]); by split..].
    specialize (He1 _ _ eq_refl). unfold same_epoch in He1.
    erewrite bind_returns by exact Hi. unfold get_num_epochs_collect.
    rewrite bind_assoc, bind_gets.
    destruct (num_epochs_collect s1) as [k|];
      [|rewrite bind_raise; eexists _, _; split; [reflexivity|];
        split; [discriminate|by rewrite app_nil_r]].
    rewrite bind_ret_l, bind_gets.
    destruct (epoch_loop_every_zero self (Z.to_nat (2 - epoch s1)) 2 to_log s1)
      as [Ht2 Ho2]; [done..|lia|].
    unfold trace, outcome in Ht2, Ho2. unfold bind.
    destruct (epoch_loop self (Z.to_nat (2 - epoch s1)) 2 to_log s1)
      as [t2 [[a s2]|e|]]; [by destruct (Ho2 a s2)|..];
      (eexists _, _; split; [reflexivity|]; split; [discriminate|by apply Forall_app]). }
  unfold trace, outcome. rewrite Hrun. by split.
Qed.

End Course.

(** * Further properties of the training and of the start of a run *)

Section FurtherTraining.
Context {E : Externals}.
Implicit Types (s : @State E) (self : Trainer) (name : ModelName) (ev : @Event E).

Lemma train_if_started_counts self name to_log s :
  (started self (epoch s) name → grad_acc_steps (component (_cfg self) name) ≠ 0) →
  ∃ t logs s',
    train_if_started self name to_log s = (t, Returns (logs, s'))
    ∧ same_data s s'
    ∧ num_batch_train s'
      = (if bool_decide (started self (epoch s) name)
         then advanced (num_batch_train s) name 1000 else num_batch_train s)
    ∧ num_batch_test s' = num_batch_test s.
Proof.
  intros Hg. unfold train_if_started, started in *. run.
  destruct (decide (start_after_epochs (component (_cfg self) name) < epoch s)) as [Hs|Hs];
    [rewrite !(bool_decide_eq_true_2 (_ < _)) by exact Hs
    |rewrite !(bool_decide_eq_false_2 (_ < _)) by exact Hs].
  - destruct (train_component_counted self name
                (if bool_decide (epoch s = 1)
                 then steps_first_epoch (component (_cfg self) name)
                 else steps_per_epoch (component (_cfg self) name)) s (Hg Hs))
      as (t & logs & s' & Hrun & Hd & Hn & Ht).
    erewrite bind_returns by exact Hrun. unfold ret. cbn [fst snd].
    by eexists _, _, s'.
  - by eexists _, _, _.
Qed.

Lemma for_each_train_if_started_counts self (l : list ModelName) : ∀ to_log s,
  (∀ name, name ∈ l → started self (epoch s) name →
           grad_acc_steps (component (_cfg self) name) ≠ 0) →
  ∃ t logs s',
    for_each l (train_if_started self) to_log s = (t, Returns (logs, s'))
    ∧ same_data s s'
    ∧ num_batch_train s'
      = foldl (λ c name, advanced c name 1000) (num_batch_train s)
          (filter (started self (epoch s)) l)
    ∧ num_batch_test s' = num_batch_test s.
Proof.
  induction l as [|name l IH]; intros to_log s Hg.
  - by eexists _, _, _.
  - destruct (train_if_started_counts self name to_log s)
      as (t1 & logs1 & s1 & H1 & Hd1 & Hn1 & Ht1).
    { apply Hg. left. }
    pose proof Hd1 as (He & _).
    destruct (IH logs1 s1) as (t2 & logs2 & s2 & H2 & Hd2 & Hn2 & Ht2).
    { rewrite He. intros name' Hin. apply Hg. by right. }
    rewrite He in Hn2.
    cbn [for_each]. erewrite bind_returns by exact H1. rewrite H2. cbn [fst snd].
    eexists _, logs2, s2. split; [reflexivity|]. split; [by etrans|]. split; [|congruence].
    rewrite Hn2, Hn1. destruct (decide (started self (epoch s) name)) as [Hs|Hs].
    + by rewrite bool_decide_eq_true_2, filter_cons_True by done.
    + by rewrite bool_decide_eq_false_2, filter_cons_False by done.
Qed.

(** X19: when every model it has to train has a non-zero
    [grad_acc_steps], [train_agent] returns and has counted 1000 batches
    for each model whose [start_after_epochs] has been passed, and none for
    another: [num_batch_train] has advanced by 1000 for exactly these
    models; the test counters, the epoch, the datasets and the count of
    test episodes are as they were. *)
Theorem train_agent_counts self s :
  (∀ name, name ∈ trained_models self → started self (epoch s) name →
           grad_acc_steps (component (_cfg self) name) ≠ 0) →
  ∃ t logs s',
    train_agent self s = (t, Returns (logs, s'))
    ∧ same_data s s'
    ∧ num_batch_train s'
      = foldl (λ c name, advanced c name 1000) (num_batch_train s)
          (filter (started self (epoch s)) (trained_models self))
    ∧ num_batch_test s' = num_batch_test s.
Proof.
  intros Hg. unfold train_agent. run.
  destruct (for_each_train_if_started_counts self (trained_models self) []
              (set_world (agent_zero_grad E (agent_train E (world s)))
                 (set_world (agent_train E (world s)) s)) Hg)
    as (t & logs & s' & Hrun & Hd & Hn & Ht).
  unfold trained_models in Hrun. fold (@_model_names) in Hrun.
  simpl in Hrun |- *. rewrite Hrun. simpl.
  eexists _, _, s'. split; [reflexivity|]. split; [exact Hd|]. split; [exact Hn|exact Ht].
Qed.

(** X20: the number of collection epochs is still read although the
    number of epochs is fixed to 2 afterwards: a run resumed at an epoch
    other than 0 that holds no [num_epochs_collect] raises [TypeError]
    before it does anything. *)
Theorem run_without_num_epochs_collect self fuel s :
  epoch s ≠ 0 → num_epochs_collect s = None →
  run self fuel s = ([], Raises Py.TypeError).
Proof.
  intros He Hn. unfold run, initial_collection, get_num_epochs_collect.
  rewrite bind_assoc, bind_gets, (bool_decide_eq_false_2 _ He), bind_ret_l.
  by rewrite bind_assoc, bind_gets, Hn, bind_raise.
Qed.

End FurtherTraining.

(** * Further scenarios *)

Module FurtherScenarios.
Import Scripted.

(** Scenario for X2: the histogram {0: 100, 1: 5}, read in either
    order. *)
Lemma total_minority_rew_Permutation_witness :
  total_minority_rew [100; 5] = total_minority_rew [5; 100].
Proof. apply total_minority_rew_Permutation. apply perm_swap. Defined.

(** Scenario for X3: 100 steps in the dataset and a maximum of 103; a
    request for one step and a request for ten lead beyond the maximum. *)
Lemma collect_initial_loop_terminates_witness :
  ∃ t n logs s',
    collect_initial_loop (E := ext) trainer_capped 3 1 [] (state_holding (100, [100]))
      = (t, Returns ((n, logs), s'))
    ∧ (length t <= 3)%nat.
Proof.
  apply (collect_initial_loop_terminates (E := ext) trainer_capped 103 3 1 []
           (state_holding (100, [100]))).
  - reflexivity.
  - intros k Hk. destruct k as [|[|[|k]]]; [vm_compute; discriminate..|lia].
  - lia.
  - vm_compute. discriminate.
Defined.

(** Scenario for X4: rank 1, no fuel at all. *)
Lemma run_needs_no_fuel_witness :
  outcome (run (E := ext) trainer_rank1 0) (state0 []) ≠ OutOfFuel.
Proof.
  apply (run_needs_no_fuel (E := ext) trainer_rank1 0 (state0 [])).
  right. right. right. vm_compute. discriminate.
Defined.

(** Scenario for X5: rank 1. *)
Lemma only_rank_zero_writes_witness :
  _rank trainer_rank1 ≠ 0
  ∧ Forall (λ ev, is_output ev = false)
      (trace (run (E := ext) trainer_rank1 5) (state0 two_collections)).
Proof.
  split; [vm_compute; discriminate|].
  apply (only_rank_zero_writes (E := ext) trainer_rank1). vm_compute; discriminate.
Defined.

(** Scenario for X6: a static dataset. *)
Lemma static_dataset_never_collects_witness :
  _is_static_dataset trainer_static = true
  ∧ Forall (λ ev, is_collection ev = false)
      (trace (run (E := ext) trainer_static 5) (state0 [])).
Proof.
  split; [reflexivity|].
  apply (static_dataset_never_collects (E := ext) trainer_static). reflexivity.
Defined.

(** Scenario for X7: a model-free trainer that evaluates at every
    epoch. *)
Lemma model_free_never_collects_train_witness :
  _is_model_free trainer_model_free_training = true
  ∧ Forall (λ ev, is_train_collect ev = false ∧ is_evaluation ev = false)
      (trace (run (E := ext) trainer_model_free_training 5) (state0 [])).
Proof.
  split; [reflexivity|].
  apply (model_free_never_collects_train (E := ext) trainer_model_free_training).
  reflexivity.
Defined.

(** Scenario for X8: [training.should] off. *)
Lemma no_training_when_off_witness :
  training_should (_cfg trainer_idle) = false
  ∧ Forall (λ ev, is_training ev = false)
      (trace (run (E := ext) trainer_idle 5) (state0 two_collections)).
Proof.
  split; [reflexivity|].
  apply (no_training_when_off (E := ext) trainer_idle). reflexivity.
Defined.

(** Scenario for X9: [evaluation.should] off, with a period of 1. *)
Lemma no_evaluation_when_off_witness :
  evaluation_should (_cfg trainer_no_evaluation) = false
  ∧ Forall (λ ev, is_evaluation ev = false ∧ test_collection_epoch ev = None)
      (trace (run (E := ext) trainer_no_evaluation 5) (state0 two_collections)).
Proof.
  split; [reflexivity|].
  apply (no_evaluation_when_off (E := ext) trainer_no_evaluation). reflexivity.
Defined.

(** Scenario for X10: [grad_acc_steps] 4 and a budget of 8 steps. *)
Lemma train_component_counts_witness :
  ∃ t logs s',
    train_component (E := ext) trainer denoiser 8 (state0 []) = (t, Returns (logs, s'))
    ∧ same_data (state0 []) s'
    ∧ num_batch_train s' = advanced (num_batch_train (state0 [])) denoiser 1000
    ∧ num_batch_test s' = num_batch_test (state0 []).
Proof.
  apply (train_component_counts (E := ext) trainer denoiser 8 (state0 [])).
  vm_compute. discriminate.
Defined.

(** Scenario for X11: [grad_acc_steps] 0. *)
Lemma train_component_zero_grad_acc_witness :
  train_component (E := ext) trainer_zero_grad_acc denoiser 8 (state0 [])
    = ([TrainComponent denoiser 8; OptZeroGrad denoiser; ModelCall denoiser],
       Raises Py.ZeroDivisionError).
Proof.
  apply (train_component_zero_grad_acc (E := ext) trainer_zero_grad_acc denoiser 8
           (state0 [])).
  reflexivity.
Defined.

(** Scenario for X12: the denoiser, over a test dataset of one batch. *)
Lemma test_component_counts_witness :
  ∃ logs s',
    test_component (E := ext) trainer denoiser (state0 [])
      = ([TestComponent denoiser; ModelEval denoiser], Returns (logs, s'))
    ∧ same_data (state0 []) s'
    ∧ num_batch_test s' = advanced (num_batch_test (state0 [])) denoiser 1
    ∧ num_batch_train s' = num_batch_train (state0 []).
Proof.
  apply (test_component_counts (E := ext) trainer denoiser (state0 [])). discriminate.
Defined.

Lemma course_evaluated :
  epoch_loop (E := ext) trainer_idle 2 2 [] course_start
    = (course_trace, Returns (tt, course_state)).
Proof. match goal with |- _ = ?r => vm_cast_no_check (@eq_refl _ r) end. Qed.

(** Scenario for X17: two epochs on rank 0 with one collection epoch:
    ten steps are asked for in epoch 1 and none in epoch 2; each epoch is
    logged and then saved. *)
Lemma epoch_loop_steps_witness :
  omap step_of course_trace
    = [SStart 1 2; SCollect (of_steps 10); SLog 1; SCheckpoint 1;
       SStart 2 2; SLog 2; SCheckpoint 2]
  ∧ num_epochs_collect course_state = Some 1.
Proof.
  exact (epoch_loop_steps (E := ext) trainer_idle 2 2 [] course_start
           course_trace course_state course_evaluated).
Defined.

(** Scenario for X18: an evaluation period of 0 on rank 0. *)
Lemma run_every_zero_witness :
  (∀ s', outcome (run (E := ext) trainer_every_zero 5) (state0 two_collections)
         ≠ Returns (tt, s'))
  ∧ Forall (λ ev, is_output ev = false)
      (trace (run (E := ext) trainer_every_zero 5) (state0 two_collections)).
Proof.
  apply (run_every_zero (E := ext) trainer_every_zero 5 (state0 two_collections));
    [reflexivity..|vm_compute; reflexivity].
Defined.

(** Scenario for X19: at epoch 1 the three models have started. *)
Lemma train_agent_counts_witness :
  ∃ t logs s',
    train_agent (E := ext) trainer (state_at 1 []) = (t, Returns (logs, s'))
    ∧ same_data (state_at 1 []) s'
    ∧ num_batch_train s' = CommonTools.mk 1000 1000 1000
    ∧ num_batch_test s' = num_batch_test (state_at 1 []).
Proof.
  apply (train_agent_counts (E := ext) trainer (state_at 1 [])).
  intros name _ _. vm_compute. discriminate.
Defined.

(** Scenario for X20: a run resumed at epoch 1 with no number of
    collection epochs. *)
Lemma run_without_num_epochs_collect_witness :
  run (E := ext) trainer 5 (state_at 1 []) = ([], Raises Py.TypeError).
Proof.
  apply (run_without_num_epochs_collect (E := ext) trainer 5 (state_at 1 []));
    [vm_compute; discriminate|reflexivity].
Defined.

End FurtherScenarios.
